(** * URL shortener: the short-code lifecycle of [backend-test-submission]

    A shallow embedding of [controllers/urlController.js] and of the
    Mongoose schema of [models/url.js], followed by the properties of the
    create / stats / redirect / list handlers.

    Conventions of the embedding.
    - A JavaScript string is a [string]; each character is one code unit
      below 256.
    - A JavaScript [Date] is its time value, a number of milliseconds in
      [Z]; [toISOString] is not modelled, a view carries the time value.
    - A JavaScript number of the request body is the rational it denotes
      ([Q]).  The sum of [calculateExpiry] and the arithmetic of
      [setMinutes] are rounded to binary64 ([Binary64.round]), as the
      language prescribes.
    - [getMinutes] and [setMinutes] work in the local time of the process;
      its time zone is an input of the create handler.
    - The collection of the [Url] model is the list of its documents in
      insertion order.  The requests of [handle] and [reachable] run one at
      a time; two redirects that overlap are modelled by the two halves
      [redirectLoad] and [redirectStore] of the handler.
    - Mongoose applies the setters of the schema ([trim]) to the values of
      a new document and to the filter of a query, and [save] validates
      the document before it writes it.
    - The clock, the random bytes read by nanoid and the verdict of the
      [URL] constructor are inputs of the handlers. *)

From Stdlib Require Import Bool Arith List String Ascii ZArith NArith QArith Qround Qpower Lia.
Import ListNotations.

Local Open Scope string_scope.
Local Open Scope Z_scope.

(** ** Characters and strings *)

Module Chars.

Definition code (c : ascii) : N := N_of_ascii c.

Definition between (lo hi : N) (c : ascii) : bool :=
  (lo <=? code c)%N && (code c <=? hi)%N.

Definition is_digit : ascii -> bool := between 48 57.
Definition is_upper : ascii -> bool := between 65 90.
Definition is_lower : ascii -> bool := between 97 122.

(** The class [[a-zA-Z0-9]]. *)
Definition is_alnum (c : ascii) : bool :=
  is_lower c || is_upper c || is_digit c.

(** ECMAScript LineTerminator below 256: LF and CR. *)
Definition is_line_terminator (c : ascii) : bool :=
  (code c =? 10)%N || (code c =? 13)%N.

(** The class [\s] below 256: TAB, LF, VT, FF, CR, SP and NBSP.  It is
    also the set of characters removed by [String.prototype.trim]. *)
Definition is_space (c : ascii) : bool :=
  between 9 13 c || (code c =? 32)%N || (code c =? 160)%N.

(** Canonicalisation of the [i] flag on ASCII letters. *)
Definition to_lower (c : ascii) : ascii :=
  if is_upper c then ascii_of_N (code c + 32) else c.

Definition eqb_ci (a b : ascii) : bool :=
  Ascii.eqb (to_lower a) (to_lower b).

End Chars.

Module Str.

Fixpoint all (p : ascii -> bool) (s : string) : bool :=
  match s with
  | EmptyString => true
  | String c r => p c && all p r
  end.

(** [strip_ci p s]: the rest of [s] after the literal [p], compared
    without regard to the case of ASCII letters. *)
Fixpoint strip_ci (p s : string) : option string :=
  match p, s with
  | EmptyString, _ => Some s
  | String a p', String b s' =>
      if Chars.eqb_ci a b then strip_ci p' s' else None
  | String _ _, EmptyString => None
  end.

Fixpoint trimStart (s : string) : string :=
  match s with
  | String c r => if Chars.is_space c then trimStart r else s
  | EmptyString => EmptyString
  end.

Fixpoint trimEnd (s : string) : string :=
  match s with
  | EmptyString => EmptyString
  | String c r =>
      match trimEnd r with
      | EmptyString => if Chars.is_space c then EmptyString else String c EmptyString
      | r' => String c r'
      end
  end.

(** [String.prototype.trim], the setter behind [trim: true]. *)
Definition trim (s : string) : string := trimEnd (trimStart s).

(** JavaScript truthiness of a string. *)
Definition truthy (s : string) : bool :=
  match s with EmptyString => false | _ => true end.

End Str.

(** ** The two regular expressions of the repository *)

(** [/^[a-zA-Z0-9]{5,10}$/.test(s)] (urlController.js, line 65). *)
Definition customCodeFormat (s : string) : bool :=
  Str.all Chars.is_alnum s
  && (5 <=? String.length s)%nat && (String.length s <=? 10)%nat.

(** [[^\s/$.?#]] *)
Definition hostStart (c : ascii) : bool :=
  negb (Chars.is_space c)
  && negb (existsb (Ascii.eqb c) ["/"; "$"; "."; "?"; "#"]%char).

(** [[^\s/$.?#].[^\s]*$] *)
Definition urlTail (s : string) : bool :=
  match s with
  | String c1 (String c2 r) =>
      hostStart c1 && negb (Chars.is_line_terminator c2)
      && Str.all (fun c => negb (Chars.is_space c)) r
  | _ => false
  end.

(** [(https?|ftp):\/\/] with the [i] flag: the rest of the input after the
    scheme and the two slashes. *)
Definition afterScheme (s : string) : option string :=
  match Str.strip_ci "http" s with
  | Some r =>
      match Str.strip_ci "s://" r with
      | Some r' => Some r'
      | None => Str.strip_ci "://" r
      end
  | None => Str.strip_ci "ftp://" s
  end.

(** [/^(https?|ftp):\/\/[^\s/$.?#].[^\s]*$/i.test(s)], the [match] of
    [originalUrl] (models/url.js, line 12). *)
Definition originalUrlMatch (s : string) : bool :=
  match afterScheme s with
  | Some r => urlTail r
  | None => false
  end.

(** ** Values of the request body *)

(** A number of a JSON body is finite or, from a literal such as
    [1e999], infinite; an infinite [validity] ends as an invalid date,
    like every number of [JNumber] beyond the range of [Date]. *)
Inductive JsValue : Type :=
| JUndefined
| JNull
| JBool (b : bool)
| JNumber (q : Q)
| JString (s : string)
| JObject.

Definition typeofNumber (v : JsValue) : bool :=
  match v with JNumber _ => true | _ => false end.

Definition isUndefined (v : JsValue) : bool :=
  match v with JUndefined => true | _ => false end.

Definition truthy (v : JsValue) : bool :=
  match v with
  | JUndefined | JNull => false
  | JBool b => b
  | JNumber q => negb (Qeq_bool q 0)
  | JString s => Str.truthy s
  | JObject => true
  end.

(** [a || b] *)
Definition jsOr (a b : JsValue) : JsValue := if truthy a then a else b.

(** ** Numbers *)

(** The Number type is IEEE 754 binary64: the result of an operation is
    the exact result rounded to 53 significant bits, to the nearest, ties
    to the even significand.  The exponent is not bounded here: a sum or a
    product beyond the range of binary64 is far outside the range of
    [Date] and ends as an invalid date either way, and a sum in the
    subnormal range only arises as [0 + x], which is [x]. *)
Module Binary64.

Definition pow2 (z : Z) : Q := Qpower 2 z.

(** The integer nearest to [y]; halfway, the even one. *)
Definition nearestEven (y : Q) : Z :=
  let f := Qfloor y in
  match Qcompare (y - inject_Z f) (1 # 2) with
  | Lt => f
  | Gt => f + 1
  | Eq => if Z.even f then f else f + 1
  end.

(** The integer part of the binary logarithm of [x > 0]. *)
Definition exponent (x : Q) : Z :=
  let e := Z.log2 (Qnum x) - Z.log2 (Zpos (Qden x)) in
  if Qle_bool (pow2 e) x then e else e - 1.

(** [x > 0] is scaled to a significand in [2^52, 2^53), which is rounded
    to an integer. *)
Definition roundPositive (x : Q) : Q :=
  let s := 52 - exponent x in
  inject_Z (nearestEven (x * pow2 s)) * pow2 (- s).

Definition round (x : Q) : Q :=
  match Qcompare x 0 with
  | Eq => 0
  | Gt => roundPositive x
  | Lt => - roundPositive (- x)
  end.

(** The Number nearest to an integer; it is an integer. *)
Definition number (k : Z) : Z := Qfloor (round (inject_Z k)).

(** [a + b] on Numbers, and [a + b] and [a * b] on Numbers that are
    integers. *)
Definition add (a b : Q) : Q := round (a + b).
Definition addInt (a b : Z) : Z := number (a + b).
Definition mulInt (a b : Z) : Z := number (a * b).

End Binary64.

(** ToIntegerOrInfinity: truncation toward zero. *)
Definition toInteger (q : Q) : Z :=
  if Qle_bool 0 q then Qfloor q else Qceiling q.

(** ** Dates *)

Inductive JsDate : Type :=
| DateValue (t : Z)
| InvalidDate.

Definition msPerSecond : Z := 1000.
Definition msPerMinute : Z := 60000.
Definition msPerHour : Z := 3600000.
Definition msPerDay : Z := 86400000.

(** TimeClip: a time value beyond 8.64e15 ms is not a date. *)
Definition timeClip (t : Z) : JsDate :=
  if Z.abs t <=? 8640000000000000 then DateValue t else InvalidDate.

(** The time zone of the process: the offset of local time from UTC, in
    milliseconds, at a time value ([offsetAt]) and at a local time
    ([offsetOfLocal]).  The two differ around a change of offset. *)
Record TimeZone : Type := mkZone {
  offsetAt : Z -> Z;
  offsetOfLocal : Z -> Z
}.

Definition utc : TimeZone := mkZone (fun _ => 0) (fun _ => 0).

(** LocalTime and UTC of ECMA-262.  A clock reading is a time value, so
    that its sum with an offset is exact. *)
Definition localTime (zone : TimeZone) (t : Z) : Z := t + offsetAt zone t.
Definition utcTime (zone : TimeZone) (t : Z) : Z :=
  Binary64.addInt t (- offsetOfLocal zone t).

Definition day (t : Z) : Z := t / msPerDay.
Definition hourFromTime (t : Z) : Z := (t / msPerHour) mod 24.
Definition minFromTime (t : Z) : Z := (t / msPerMinute) mod 60.
Definition secFromTime (t : Z) : Z := (t / msPerSecond) mod 60.
Definition msFromTime (t : Z) : Z := t mod msPerSecond.

(** MakeTime and MakeDate, in the arithmetic of Numbers. *)
Definition makeTime (hour min sec ms : Z) : Z :=
  Binary64.addInt
    (Binary64.addInt
       (Binary64.addInt (Binary64.mulInt hour msPerHour)
                        (Binary64.mulInt min msPerMinute))
       (Binary64.mulInt sec msPerSecond))
    ms.

Definition makeDate (d time : Z) : Z :=
  Binary64.addInt (Binary64.mulInt d msPerDay) time.

(** [Date.prototype.getMinutes]: the minutes of the local time. *)
Definition getMinutes (zone : TimeZone) (t : Z) : Z := minFromTime (localTime zone t).

(** [d.setMinutes(min)] on a date of time value [t]: the minutes field of
    the local time is replaced by the integer part of [min], and the
    result is taken back to UTC (step 9 and 10 of
    [Date.prototype.setMinutes]). *)
Definition setMinutes (zone : TimeZone) (t : Z) (min : Q) : JsDate :=
  let local := localTime zone t in
  let date :=
    makeDate (day local)
             (makeTime (hourFromTime local) (toInteger min)
                       (secFromTime local) (msFromTime local)) in
  timeClip (utcTime zone date).

(** ** nanoid *)

(** [nanoid] is the npm package of that name (3.x, required at line 3 of
    the controller); it is not part of the repository.  Its Node
    implementation reads [size] bytes of [crypto.randomFillSync] from a
    pool and maps each byte [b] to [urlAlphabet[b & 63]]. *)
Module Nanoid.

Definition urlAlphabet : string :=
  "useandom-26T198340PX75pxJACKVERYMINDBUSHWOLF_GQZbfghjklqvwyzrict".

Definition symbol (b : N) : ascii :=
  match String.get (N.to_nat (N.land b 63)) urlAlphabet with
  | Some c => c
  | None => "u"%char
  end.

(** [id bytes offset size]: the identifier built from the [size] pool
    bytes that start at [offset]. *)
Fixpoint id (bytes : nat -> N) (offset size : nat) : string :=
  match size with
  | O => EmptyString
  | S n => String (symbol (bytes offset)) (id bytes (S offset) n)
  end.

(** The characters [nanoid] can produce: [A-Za-z0-9_-]. *)
Definition is_symbol (c : ascii) : bool :=
  Chars.is_alnum c || Ascii.eqb c "_" || Ascii.eqb c "-".

End Nanoid.

(** The scheme start and scheme states of the WHATWG URL parser, run
    without a base URL as [new URL(s)] does: the input has to begin with
    an ASCII letter, continued by letters, digits, [+], [-] or [.] up to a
    colon.  The later states (host, port, path) are not modelled: the
    function stands for the constructor only at the concrete inputs of
    the examples, whose remainder is plainly well formed. *)
Module Whatwg.

Definition is_alpha (c : ascii) : bool := Chars.is_lower c || Chars.is_upper c.

Definition is_scheme_char (c : ascii) : bool :=
  Chars.is_alnum c || existsb (Ascii.eqb c) ["+"; "-"; "."]%char.

Fixpoint schemeState (s : string) : bool :=
  match s with
  | EmptyString => false
  | String c r =>
      if Ascii.eqb c ":" then true
      else if is_scheme_char c then schemeState r
      else false
  end.

Definition schemePrefix (s : string) : bool :=
  match s with
  | String c r => is_alpha c && schemeState r
  | EmptyString => false
  end.

End Whatwg.

(** ** The data model (models/url.js) *)

Record ClickEvent : Type := mkClick {
  timestamp : Z;
  source : string;
  location : string
}.

Record UrlDoc : Type := mkUrl {
  originalUrl : string;
  shortCode : string;
  createdAt : Z;
  expiresAt : option Z;     (* [None] is [null]: the document never expires *)
  clicks : nat;
  clickHistory : list ClickEvent
}.

(** The collection, in insertion order. *)
Definition Collection : Type := list UrlDoc.

(** The first document that is stored under [code]. *)
Definition lookup (code : string) (c : Collection) : option UrlDoc :=
  find (fun d => String.eqb (shortCode d) code) c.

(** [Url.findOne({ shortCode })]: Mongoose casts the filter with the
    schema of the path, which applies the [trim] setter, and the first
    document with the resulting code is returned. *)
Definition findOne (code : string) (c : Collection) : option UrlDoc :=
  lookup (Str.trim code) c.

(** Physical deletion (the TTL monitor of line 57 of the model, or an
    operator): the documents selected by [gone] disappear. *)
Definition deleteMany (gone : UrlDoc -> bool) (c : Collection) : Collection :=
  filter (fun d => negb (gone d)) c.

(** [doc.save()] on a document obtained from [findOne]: the stored
    document, the first one with that code, is overwritten. *)
Fixpoint saveExisting (d' : UrlDoc) (c : Collection) : Collection :=
  match c with
  | [] => []
  | d :: r =>
      if String.eqb (shortCode d) (shortCode d') then d' :: r
      else d :: saveExisting d' r
  end.

(** *** Saving a new document *)

(** The schema validators run by [save] on a new document; the result is
    the list of the paths that fail.  [originalUrl] and [shortCode] are
    already trimmed by their setters.
    - [originalUrl]: [required], then [match] on a non-empty value;
    - [shortCode]: [required], [minlength: 5], [maxlength: 10];
    - [expiresAt]: an invalid [Date] cannot be cast; a date is accepted by
      the custom validator when [v > Date.now()]; [null] passes. *)
Definition validateNew (now : Z) (url code : string) (expiry : option JsDate)
  : list string :=
  ((if Str.truthy url && originalUrlMatch url then [] else ["originalUrl"])
  ++ (if Str.truthy code
         && (5 <=? String.length code)%nat && (String.length code <=? 10)%nat
      then [] else ["shortCode"])
  ++ (match expiry with
      | None => []
      | Some InvalidDate => ["expiresAt"]
      | Some (DateValue v) => if now <? v then [] else ["expiresAt"]
      end))%list.

Inductive SaveResult : Type :=
| Saved (d : UrlDoc) (c : Collection)
| ValidationError (paths : list string)
| DuplicateKey.

Definition dateValue (d : option JsDate) : option Z :=
  match d with
  | Some (DateValue v) => Some v
  | _ => None
  end.

(** [new Url({ originalUrl, shortCode, expiresAt })] at time [tNew]
    followed by [save()] at time [tSave]: setters and defaults, then
    validation, then the insertion under the unique index of
    [shortCode]. *)
Definition saveNew (tNew tSave : Z) (url code : string)
    (expiry : option JsDate) (c : Collection) : SaveResult :=
  let url' := Str.trim url in
  let code' := Str.trim code in
  match validateNew tSave url' code' expiry with
  | [] =>
      match lookup code' c with
      | Some _ => DuplicateKey
      | None =>
          let d := mkUrl url' code' tNew (dateValue expiry) 0 [] in
          Saved d (c ++ [d])%list
      end
  | paths => ValidationError paths
  end.

(** *** Saving a document that was loaded *)

(** [save] validates a loaded document as a whole, the paths that were
    not modified included (Mongoose's default, [validateModifiedOnly] not
    being set): the validators of [validateNew] run on the stored values,
    the one of [expiresAt] against the clock at the time of the save. *)
Definition validateExisting (now : Z) (d : UrlDoc) : list string :=
  validateNew now (originalUrl d) (shortCode d) (option_map DateValue (expiresAt d)).

(** ** Responses *)

Record Summary : Type := mkSummary {
  sumShortCode : string;
  sumOriginalUrl : string;
  sumCreatedAt : Z;
  sumExpiresAt : option Z;
  sumTotalClicks : nat
}.

Inductive Body : Type :=
| Message (m : string)
| ValidationMessage (paths : list string)
| CreatedView (code url : string) (expiry : option Z)
| StatsView (code url : string) (created : Z) (expires : option Z)
            (totalClicks : nat) (history : list ClickEvent)
| ListView (items : list Summary).

Inductive Response : Type :=
| Json (status : Z) (body : Body)      (* [res.status(n).json(body)] *)
| Send (status : Z) (text : string)    (* [res.status(n).send(text)] *)
| Redirect (target : string).          (* [res.redirect(target)], a 302 *)

Definition MissingUrl := Json 400 (Message "Original URL is required.").
Definition InvalidUrl := Json 400 (Message "Invalid URL format.").
Definition InvalidValidity :=
  Json 400 (Message "Validity must be a positive integer in minutes.").
Definition CodeConflict := Json 409 (Message "Custom shortcode is already in use.").
Definition CodeFormatInvalid :=
  Json 400 (Message "Custom shortcode must be 5-10 alphanumeric characters.").
Definition GenerationExhausted :=
  Json 500 (Message "Failed to generate a unique shortcode. Please try again.").
Definition CreateServerError :=
  Json 500 (Message "Server error while creating short URL.").
Definition StatsNotFound := Json 404 (Message "Short URL not found.").
Definition StatsGone := Json 410 (Message "Short URL has expired.").
Definition RedirectNotFound := Send 404 "Short URL not found.".
Definition RedirectGone := Send 410 "Short URL has expired.".
Definition RedirectServerError := Send 500 "Server error during redirect.".

Definition statusOf (r : Response) : Z :=
  match r with
  | Json s _ => s
  | Send s _ => s
  | Redirect _ => 302
  end.

(** ** The controller (controllers/urlController.js) *)

(** The body of [POST /shorturls]: [url], [validity] and [shortcode].
    [url] and [shortcode] are strings, [None] being an absent field;
    [validity] is any value. *)
Record CreateBody : Type := mkBody {
  url : option string;
  validity : JsValue;
  shortcode : option string
}.

(** The three readings of the clock during one create request: [new
    Date()] in [calculateExpiry], the [createdAt] default of [new Url],
    and [Date.now()] in the validator of [expiresAt]; and the time zone in
    which [calculateExpiry] reads and sets the minutes. *)
Record CreateClock : Type := mkClock {
  atExpiry : Z;
  atNew : Z;
  atSave : Z;
  zone : TimeZone
}.

(** The three readings of the clock during one redirect: [new Date()] in
    the expiry test, [new Date()] as the timestamp of the click, and
    [Date.now()] in the validator of [expiresAt] when the click is saved. *)
Record VisitClock : Type := mkVisitClock {
  atCheck : Z;
  atClick : Z;
  atStore : Z
}.

(** [GET /:shortCode] with the parts of the request the handler reads:
    the route parameter, two headers and [req.ip]. *)
Record RedirectRequest : Type := mkRedirect {
  paramShortCode : string;
  referer : option string;
  userAgent : option string;
  ip : string
}.

(** What the handlers act on: the collection and the read position of
    nanoid's pool of random bytes. *)
Record World : Type := mkWorld {
  docs : Collection;
  poolOffset : nat
}.

Definition MAX_ATTEMPTS : nat := 5.

(** [h || k] for a header [h]. *)
Definition headerOr (h : option string) (k : string) : string :=
  match h with
  | Some s => if Str.truthy s then s else k
  | None => k
  end.

(** [validity !== undefined && (typeof validity !== 'number' || validity <= 0)] *)
Definition validityRejected (v : JsValue) : bool :=
  negb (isUndefined v)
  && match v with
     | JNumber q => Qle_bool q 0
     | _ => true
     end.

(** [calculateExpiry] (lines 19-26), called at time [now] in the time
    zone [tz].  Only [undefined] and numbers reach it from
    [createShortUrl]; the coercions of [>] on other values are not
    modelled. *)
Definition calculateExpiry (tz : TimeZone) (now : Z) (validityMinutes : JsValue)
  : option JsDate :=
  match validityMinutes with
  | JNumber q =>
      if truthy validityMinutes && negb (Qle_bool q 0)
      then Some (setMinutes tz now (Binary64.add (inject_Z (getMinutes tz now)) q))
      else None
  | _ => None
  end.

(** [urlEntry.expiresAt && urlEntry.expiresAt < new Date()] (lines 140
    and 187). *)
Definition isExpired (d : UrlDoc) (now : Z) : bool :=
  match expiresAt d with
  | Some e => e <? now
  | None => false
  end.

Definition summarize (d : UrlDoc) : Summary :=
  mkSummary (shortCode d) (originalUrl d) (createdAt d) (expiresAt d) (clicks d).

(** The click pushed at lines 194-198. *)
Definition clickOf (now : Z) (req : RedirectRequest) : ClickEvent :=
  mkClick now
          (headerOr (referer req) (headerOr (userAgent req) "Direct/Unknown"))
          (ip req).

(** Lines 193-198: [clicks += 1] and the push. *)
Definition recordClick (ev : ClickEvent) (d : UrlDoc) : UrlDoc :=
  mkUrl (originalUrl d) (shortCode d) (createdAt d) (expiresAt d)
        (clicks d + 1) (clickHistory d ++ [ev])%list.

Section Controller.

(** Whether [new URL(s)] returns rather than throws. *)
Variable urlParses : string -> bool.

(** The bytes of [crypto.randomFillSync], in the order nanoid reads
    them. *)
Variable randomBytes : nat -> N.

(** [isValidUrl] (lines 9-16). *)
Definition isValidUrl (s : string) : bool := urlParses s.

(** [nanoid(5)] at pool position [offset]. *)
Definition nanoid5 (offset : nat) : string := Nanoid.id randomBytes offset 5.

(** The loop of lines 75-82 with [remaining = MAX_ATTEMPTS - attempts]:
    the code found, if any, and the pool position afterwards. *)
Fixpoint generate (remaining offset : nat) (c : Collection) : option string * nat :=
  match remaining with
  | O => (None, offset)
  | S k =>
      let code := nanoid5 offset in
      match findOne code c with
      | None => (Some code, (offset + 5)%nat)
      | Some _ => generate k (offset + 5)%nat c
      end
  end.

(** Step 3 of [createShortUrl] (lines 70-87): the generated code, or
    the response of the early return. *)
Definition generateCode (w : World) : (Response + string) * World :=
  match generate MAX_ATTEMPTS (poolOffset w) (docs w) with
  | (Some code, off) => (inr code, mkWorld (docs w) off)
  | (None, off) => (inl GenerationExhausted, mkWorld (docs w) off)
  end.

(** Steps 2 and 3 (lines 54-88): [if (customShortCode)] and its two
    branches. *)
Definition chooseCode (custom : option string) (w : World)
  : (Response + string) * World :=
  match custom with
  | Some customShortCode =>
      if Str.truthy customShortCode then
        match findOne customShortCode (docs w) with
        | Some _ => (inl CodeConflict, w)
        | None =>
            if negb (customCodeFormat customShortCode)
            then (inl CodeFormatInvalid, w)
            else (inr customShortCode, w)
        end
      else generateCode w
  | None => generateCode w
  end.

(** [createShortUrl] (lines 33-119); [target] is the [originalUrl] of
    the source and [expiry] its [expiresAt]. *)
Definition createShortUrl (clk : CreateClock) (body : CreateBody) (w : World)
  : Response * World :=
  match url body with
  | None => (MissingUrl, w)
  | Some target =>
      if negb (Str.truthy target) then (MissingUrl, w)
      else if negb (isValidUrl target) then (InvalidUrl, w)
      else if validityRejected (validity body) then (InvalidValidity, w)
      else
        match chooseCode (shortcode body) w with
        | (inl early, w') => (early, w')
        | (inr shortCodeToUse, w') =>
            let expiry :=
              calculateExpiry (zone clk) (atExpiry clk)
                              (jsOr (validity body) (JNumber 30)) in
            match saveNew (atNew clk) (atSave clk)
                          target shortCodeToUse expiry (docs w') with
            | Saved savedUrl c' =>
                (Json 201 (CreatedView (shortCode savedUrl) (originalUrl savedUrl)
                                       (expiresAt savedUrl)),
                 mkWorld c' (poolOffset w'))
            | ValidationError paths => (Json 400 (ValidationMessage paths), w')
            | DuplicateKey => (CreateServerError, w')
            end
        end
  end.

(** [getShortUrlStats] (lines 126-167), run at time [now]. *)
Definition getShortUrlStats (now : Z) (code : string) (c : Collection) : Response :=
  match findOne code c with
  | None => StatsNotFound
  | Some urlEntry =>
      if isExpired urlEntry now then StatsGone
      else Json 200 (StatsView (shortCode urlEntry) (originalUrl urlEntry)
                               (createdAt urlEntry) (expiresAt urlEntry)
                               (clicks urlEntry) (clickHistory urlEntry))
  end.

(** [redirectToOriginal] (lines 175-208).  A validation error of
    [urlEntry.save()] is caught at line 204. *)
Definition redirectToOriginal (clk : VisitClock) (req : RedirectRequest)
    (c : Collection) : Response * Collection :=
  match findOne (paramShortCode req) c with
  | None => (RedirectNotFound, c)
  | Some urlEntry =>
      if isExpired urlEntry (atCheck clk) then (RedirectGone, c)
      else
        let urlEntry' := recordClick (clickOf (atClick clk) req) urlEntry in
        match validateExisting (atStore clk) urlEntry' with
        | [] => (Redirect (originalUrl urlEntry'), saveExisting urlEntry' c)
        | _ => (RedirectServerError, c)
        end
  end.

(** [getAllShortUrls] (lines 217-234). *)
Definition getAllShortUrls (c : Collection) : Response :=
  Json 200 (ListView (map summarize c)).

(** *** The service as a transition system *)

Inductive Request : Type :=
| Create (clk : CreateClock) (body : CreateBody)
| GetStats (now : Z) (code : string)
| Visit (clk : VisitClock) (req : RedirectRequest)
| ListAll
| Evict (gone : UrlDoc -> bool).

(** One request against the world; an eviction answers nothing. *)
Definition handle (r : Request) (w : World) : option Response * World :=
  match r with
  | Create clk body =>
      let (resp, w') := createShortUrl clk body w in (Some resp, w')
  | GetStats now code => (Some (getShortUrlStats now code (docs w)), w)
  | Visit clk req =>
      let (resp, c') := redirectToOriginal clk req (docs w) in
      (Some resp, mkWorld c' (poolOffset w))
  | ListAll => (Some (getAllShortUrls (docs w)), w)
  | Evict gone => (None, mkWorld (deleteMany gone (docs w)) (poolOffset w))
  end.

Definition initial : World := mkWorld [] 0.

(** The worlds the service can be in when its requests are served one at
    a time: the empty collection, then any sequence of requests and
    evictions, each one completed before the next begins. *)
Inductive reachable : World -> Prop :=
| reach_initial : reachable initial
| reach_step (r : Request) (w : World) :
    reachable w -> reachable (snd (handle r w)).

End Controller.

(** ** Predicates of the properties *)

(** [clicks] counts the events of [clickHistory]. *)
Definition counted (d : UrlDoc) : Prop :=
  clicks d = List.length (clickHistory d).

(** The validators of [originalUrl] and [shortCode] accept the stored
    values. *)
Definition schemaValid (d : UrlDoc) : Prop :=
  validateNew 0 (originalUrl d) (shortCode d) None = [].

(** Every document is counted and valid, and no two documents share a
    code. *)
Definition consistent (c : Collection) : Prop :=
  Forall counted c /\ NoDup (map shortCode c) /\ Forall schemaValid c.

(** The pattern [^[A-Za-z0-9]{5}$] that the specification gives for a
    generated code. *)
Definition alphanumeric5 (s : string) : bool :=
  Str.all Chars.is_alnum s && (String.length s =? 5)%nat.

(** [served ev c c' d]: [c'] is [c] with the document [d] replaced, in
    place, by [d] with one more click and the event [ev] at the end of its
    history; no other field and no other document is changed. *)
Definition served (ev : ClickEvent) (c c' : Collection) (d : UrlDoc) : Prop :=
  exists before after,
    c = (before ++ d :: after)%list
    /\ c' = (before
             ++ mkUrl (originalUrl d) (shortCode d) (createdAt d) (expiresAt d)
                      (clicks d + 1) (clickHistory d ++ [ev])%list
             :: after)%list.

(** ** Sample requests *)

Module Sample.

(** Random bytes 0, 1, 2, ...: the first nanoid is ["usean"]. *)
Definition counting (n : nat) : N := N.of_nat n.

(** Random bytes that are all 8: every nanoid is ["-----"]. *)
Definition eights (_ : nat) : N := 8%N.

Definition clock : CreateClock := mkClock 1000 1001 1002 utc.

(** Sixteen minutes past the hour. *)
Definition clockAt16 : CreateClock := mkClock 960000 960001 960002 utc.

(** A zone two hours ahead of UTC until 01:00 UTC of the first day, one
    hour ahead from then on: at 03:00 local time the clocks go back to
    02:00. *)
Definition fallBack : TimeZone :=
  mkZone (fun t => if t <? 3600000 then 7200000 else 3600000)
         (fun local => if local <? 10800000 then 7200000 else 3600000).

(** 00:45 UTC, a quarter of an hour before the clocks go back. *)
Definition clockBeforeChange : CreateClock := mkClock 2700000 2700001 2700002 fallBack.

Definition plain : CreateBody :=
  mkBody (Some "https://example.com/a") JUndefined None.

Definition withValidity (q : Q) : CreateBody :=
  mkBody (Some "https://example.com/a") (JNumber q) None.

Definition withCode (code : string) : CreateBody :=
  mkBody (Some "https://x.com") JUndefined (Some code).

(** A stored document with code ["abcde"] and the given expiry. *)
Definition stored (e : option Z) : UrlDoc :=
  mkUrl "https://example.com/a" "abcde" 0 e 0 [].

Definition visit : RedirectRequest :=
  mkRedirect "abcde" (Some "https://ref.example/") (Some "curl/8.0") "10.0.0.7".

(** A redirect whose three clock readings fall in the same millisecond. *)
Definition instant (t : Z) : VisitClock := mkVisitClock t t t.

Definition create (bytes : nat -> N) (body : CreateBody) (w : World)
  : Response * World :=
  createShortUrl Whatwg.schemePrefix bytes clock body w.

End Sample.

(** Two worlds the service reaches: after one create request, and after a
    visit of the code it returned. *)
Module Run.

Definition created : World :=
  snd (handle Whatwg.schemePrefix Sample.counting
         (Create Sample.clock Sample.plain) initial).

Definition visitUsean : RedirectRequest :=
  mkRedirect "usean" None (Some "curl/8.0") "10.0.0.7".

Definition visited : World :=
  snd (handle Whatwg.schemePrefix Sample.counting
         (Visit (mkVisitClock 2000 2001 2002) visitUsean) created).

End Run.

(** ** Redirects that overlap *)

(** The handler awaits twice: [Url.findOne] at line 180 and
    [urlEntry.save()] at line 200.  Another request can be served between
    the two. *)

(** Lines 180-190 of [redirectToOriginal]: the lookup and the expiry
    test.  The answer of an early return, or the document that was
    loaded. *)
Definition redirectLoad (clk : VisitClock) (req : RedirectRequest) (c : Collection)
  : Response + UrlDoc :=
  match findOne (paramShortCode req) c with
  | None => inl RedirectNotFound
  | Some urlEntry =>
      if isExpired urlEntry (atCheck clk) then inl RedirectGone else inr urlEntry
  end.

(** What [save] writes for a loaded document whose [clicks] was assigned
    and onto whose [clickHistory] one event was pushed: [$set] of [clicks]
    to the value computed from the loaded document, and [$push] of the
    event onto the array as it is stored. *)
Definition applyClick (loadedClicks : nat) (ev : ClickEvent) (stored : UrlDoc) : UrlDoc :=
  mkUrl (originalUrl stored) (shortCode stored) (createdAt stored) (expiresAt stored)
        (loadedClicks + 1) (clickHistory stored ++ [ev])%list.

(** The update of the first document stored under [code]. *)
Fixpoint updateOne (code : string) (f : UrlDoc -> UrlDoc) (c : Collection) : Collection :=
  match c with
  | [] => []
  | d :: r =>
      if String.eqb (shortCode d) code then f d :: r
      else d :: updateOne code f r
  end.

(** Lines 193-202 for a document that was loaded earlier: the loaded
    document with its click is validated, and the update is applied to the
    document as it is stored by then.  The stored document is the one with
    the code of the loaded one; when it is no longer stored, [save] throws
    and line 204 catches. *)
Definition redirectStore (clk : VisitClock) (req : RedirectRequest)
    (loaded : UrlDoc) (c : Collection) : Response * Collection :=
  let ev := clickOf (atClick clk) req in
  match validateExisting (atStore clk) (recordClick ev loaded) with
  | [] =>
      match lookup (shortCode loaded) c with
      | Some _ =>
          (Redirect (originalUrl loaded),
           updateOne (shortCode loaded) (applyClick (clicks loaded) ev) c)
      | None => (RedirectServerError, c)
      end
  | _ => (RedirectServerError, c)
  end.

(** ** Sequences of redirects *)

(** Redirects served one after the other, each with its own clock. *)
Fixpoint visitAll (vs : list (VisitClock * RedirectRequest)) (c : Collection)
  : Collection :=
  match vs with
  | [] => c
  | (clk, req) :: rest => visitAll rest (snd (redirectToOriginal clk req c))
  end.

(** The events that the redirects [vs] push, in order. *)
Definition clicksOf (vs : list (VisitClock * RedirectRequest)) : list ClickEvent :=
  map (fun v => clickOf (atClick (fst v)) (snd v)) vs.

(** ** Predicates on stored documents *)

(** A code of 5 to 10 characters of [A-Za-z0-9_-]. *)
Definition urlSafeCode (s : string) : bool :=
  Str.all Nanoid.is_symbol s
  && (5 <=? String.length s)%nat && (String.length s <=? 10)%nat.

(** The expiry that step 4 of [createShortUrl] computes (lines 90-91). *)
Definition expiryOf (clk : CreateClock) (v : JsValue) : option JsDate :=
  calculateExpiry (zone clk) (atExpiry clk) (jsOr v (JNumber 30)).

(** The minutes by which line 22 moves the date for the number [q]: the
    integer part of the Number [getMinutes() + q], less the minutes that
    were read. *)
Definition minutesAdded (clk : CreateClock) (q : Q) : Z :=
  toInteger (Binary64.add (inject_Z (getMinutes (zone clk) (atExpiry clk))) q)
  - getMinutes (zone clk) (atExpiry clk).

(** [validity] asks for the whole number [n] of minutes: it is absent and
    [n] is 30, or it is the positive whole number [n]. *)
Definition wholeMinutes (v : JsValue) (n : Z) : Prop :=
  v = JUndefined /\ n = 30
  \/ exists q, v = JNumber q /\ (q == inject_Z n)%Q /\ 0 < n.

(** The conditions under which [setMinutes] moves the date of the request
    by [n] minutes exactly: local time is [off] milliseconds ahead of UTC
    both at the time of the request and at the local time [n] minutes
    later, the local time of the request is a date from 1970 on, and the
    local time [n] minutes later is in the range of [Date]. *)
Definition steady (clk : CreateClock) (n off : Z) : Prop :=
  Z.abs off < msPerDay
  /\ offsetAt (zone clk) (atExpiry clk) = off
  /\ offsetOfLocal (zone clk) (atExpiry clk + off + n * msPerMinute) = off
  /\ 0 <= atExpiry clk + off
  /\ atExpiry clk + off + n * msPerMinute <= 8640000000000000.

(** [d'] is [d] after some redirects: same URL, code, creation and expiry,
    and a history that extends the one of [d]. *)
Definition evolved (d d' : UrlDoc) : Prop :=
  originalUrl d' = originalUrl d
  /\ shortCode d' = shortCode d
  /\ createdAt d' = createdAt d
  /\ expiresAt d' = expiresAt d
  /\ (clicks d <= clicks d')%nat
  /\ exists more, clickHistory d' = (clickHistory d ++ more)%list.

(** The paths that fail when a request reaches the save with a URL-safe
    code. *)
Definition failingPaths (clk : CreateClock) (target : string) (v : JsValue)
  : list string :=
  ((if originalUrlMatch (Str.trim target) then [] else ["originalUrl"])
   ++ match expiryOf clk v with
      | None => []
      | Some InvalidDate => ["expiresAt"]
      | Some (DateValue e) => if atSave clk <? e then [] else ["expiresAt"]
      end)%list.

(** The expiry of [d], if any, is not before the expiry test of the
    redirect and is still ahead when its click is saved. *)
Definition live (clk : VisitClock) (d : UrlDoc) : Prop :=
  match expiresAt d with
  | None => True
  | Some e => atCheck clk <= e /\ atStore clk < e
  end.

(** ** Routing (app.js, routes/urlRoutes.js) *)

Inductive Method : Type := GET | HEAD | POST | OPTIONS | OtherMethod.

(** A request as the routes see it.  The path is the list of its
    segments, without the query string: [/shorturls/abcd1] is
    [["shorturls"; "abcd1"]] and [/] is [[]].  The segments are free of
    percent-escapes: Express compares the path as it is written and
    decodes only the parameters it hands to a handler. *)
Record HttpRequest : Type := mkHttp {
  httpMethod : Method;
  httpPath : list string;
  httpBody : CreateBody;
  httpReferer : option string;
  httpUserAgent : option string;
  httpIp : string
}.

(** The mount path [/shorturls] of line 59 of app.js; Express compares
    paths without regard to case. *)
Definition isMount (segment : string) : bool :=
  match Str.strip_ci "shorturls" segment with
  | Some EmptyString => true
  | _ => false
  end.

(** A [get] route also serves [HEAD]. *)
Definition isGet (m : Method) : bool :=
  match m with
  | GET | HEAD => true
  | _ => false
  end.

Definition redirectRequest (code : string) (req : HttpRequest) : RedirectRequest :=
  mkRedirect code (httpReferer req) (httpUserAgent req) (httpIp req).

Section Routes.

Variable urlParses : string -> bool.
Variable randomBytes : nat -> N.

(** The route [app.get('/:shortCode', redirectToOriginal)] of line 65 of
    app.js, reached by a path of one segment. *)
Definition rootRoute (vclk : VisitClock) (req : HttpRequest) (w : World)
  : option (Response * World) :=
  match httpPath req with
  | [code] =>
      if isGet (httpMethod req) then
        let (resp, c') := redirectToOriginal vclk (redirectRequest code req) (docs w) in
        Some (resp, mkWorld c' (poolOffset w))
      else None
  | _ => None
  end.

(** The application of app.js, in the order of its [use] calls: the CORS
    middleware answers every [OPTIONS] request (lines 34-43); the router
    of routes/urlRoutes.js is mounted at [/shorturls] with
    [POST /] and [GET /:shortCode]; a request that the router does not
    answer goes on to the root route.  [None] is a request that no route
    answers (the 404 of Express). *)
Definition dispatch (cclk : CreateClock) (vclk : VisitClock)
    (req : HttpRequest) (w : World) : option (Response * World) :=
  match httpMethod req with
  | OPTIONS => Some (Send 200 "OK", w)
  | m =>
      match httpPath req with
      | mount :: rest =>
          if isMount mount then
            match m, rest with
            | POST, [] =>
                Some (createShortUrl urlParses randomBytes cclk (httpBody req) w)
            | (GET | HEAD), [code] =>
                Some (getShortUrlStats (atCheck vclk) code (docs w), w)
            | _, _ => rootRoute vclk req w
            end
          else rootRoute vclk req w
      | [] => None
      end
  end.

(** Requests served one after the other. *)
Fixpoint handleAll (rs : list Request) (w : World) : World :=
  match rs with
  | [] => w
  | r :: rest => handleAll rest (snd (handle urlParses randomBytes r w))
  end.

End Routes.

Definition isEvict (r : Request) : bool :=
  match r with
  | Evict _ => true
  | _ => false
  end.

(** An answer that carries the list of [getAllShortUrls]. *)
Definition isList (r : Response) : Prop :=
  exists status items, r = Json status (ListView items).

(** ** The logger (logging-middleware/index.js) *)

Module Logger.

(** An object with string keys, as the list of its properties. *)
Definition Obj : Type := list (string * JsValue).

Fixpoint get (k : string) (o : Obj) : option JsValue :=
  match o with
  | [] => None
  | (k', v) :: r => if String.eqb k' k then Some v else get k r
  end.

(** Definition of the property [k]: an existing property keeps its place
    and takes the new value, a new one goes to the end. *)
Fixpoint set (k : string) (v : JsValue) (o : Obj) : Obj :=
  match o with
  | [] => [(k, v)]
  | (k', v') :: r =>
      if String.eqb k' k then (k, v) :: r else (k', v') :: set k v r
  end.

(** [{ ...o, ...m }]: the properties of [m] are defined on [o] in turn. *)
Fixpoint spread (o m : Obj) : Obj :=
  match m with
  | [] => o
  | (k, v) :: r => spread (set k v o) r
  end.

(** The object literal of lines 55-61. *)
Definition logEntry (timestamp level service message : string) (metadata : Obj)
  : Obj :=
  spread (set "message" (JString message)
            (set "service" (JString service)
               (set "level" (JString level)
                  (set "timestamp" (JString timestamp) []))))
         metadata.

Definition keys (o : Obj) : list string := map fst o.

End Logger.

(** * Properties *)

(** ** The collection *)

Section CollectionFacts.

Lemma lookup_Some code c d :
  lookup code c = Some d -> In d c /\ shortCode d = code.
Proof.
  unfold lookup. intros H. apply find_some in H.
  destruct H as [Hin Heq]. apply String.eqb_eq in Heq. auto.
Qed.

Lemma lookup_None code c :
  lookup code c = None -> forall d, In d c -> shortCode d <> code.
Proof.
  unfold lookup. intros H d Hin Heq.
  apply (find_none _ _ H) in Hin. apply String.eqb_neq in Hin. auto.
Qed.

Lemma lookup_None_codes code c :
  lookup code c = None <-> ~ In code (map shortCode c).
Proof.
  split.
  - intros H Hin. apply in_map_iff in Hin. destruct Hin as [d [Hd Hin]].
    exact (lookup_None _ _ H d Hin Hd).
  - intros H. destruct (lookup code c) as [d|] eqn:E; [|reflexivity].
    apply lookup_Some in E. destruct E as [Hin Hd]. exfalso. apply H.
    rewrite <- Hd. apply in_map. exact Hin.
Qed.

Lemma findOne_Some code c d :
  findOne code c = Some d -> In d c /\ shortCode d = Str.trim code.
Proof. apply lookup_Some. Qed.

Lemma findOne_None code c :
  findOne code c = None -> forall d, In d c -> shortCode d <> Str.trim code.
Proof. apply lookup_None. Qed.

Lemma saveExisting_codes d' c :
  In (shortCode d') (map shortCode c) ->
  map shortCode (saveExisting d' c) = map shortCode c.
Proof.
  induction c as [|d r IH]; simpl; intros Hin; [reflexivity|].
  destruct (String.eqb (shortCode d) (shortCode d')) eqn:E.
  - apply String.eqb_eq in E. simpl. now rewrite E.
  - simpl. f_equal. apply IH. destruct Hin as [Hin|Hin]; [|exact Hin].
    apply String.eqb_neq in E. contradiction.
Qed.

(** The save overwrites the document that the lookup returned, in place:
    the documents before and after it are untouched. *)
Lemma saveExisting_lookup code c d d' :
  lookup code c = Some d -> shortCode d' = code ->
  exists before after,
    c = (before ++ d :: after)%list
    /\ saveExisting d' c = (before ++ d' :: after)%list.
Proof.
  unfold lookup. intros Hf Hc. subst code.
  induction c as [|x r IH]; simpl in *; [discriminate|].
  destruct (String.eqb (shortCode x) (shortCode d')) eqn:E.
  - inversion Hf; subst. exists [], r. split; reflexivity.
  - destruct (IH Hf) as (before & after & H1 & H2).
    exists (x :: before), after. simpl. rewrite <- H1, <- H2. auto.
Qed.

(** After the save, the lookup returns the saved document. *)
Lemma lookup_saveExisting code c d d' :
  lookup code c = Some d -> shortCode d' = code ->
  lookup code (saveExisting d' c) = Some d'.
Proof.
  unfold lookup. intros Hf Hc. subst code.
  induction c as [|x r IH]; simpl in *; [discriminate|].
  destruct (String.eqb (shortCode x) (shortCode d')) eqn:E.
  - simpl. now rewrite String.eqb_refl.
  - simpl. rewrite E. apply IH. exact Hf.
Qed.

(** Every document after the save is the saved one or an old one. *)
Lemma saveExisting_In d' c x :
  In x (saveExisting d' c) -> x = d' \/ In x c.
Proof.
  induction c as [|y r IH]; simpl; [tauto|].
  destruct (String.eqb (shortCode y) (shortCode d')); simpl.
  - intros [H|H]; auto.
  - intros [H|H]; auto. destruct (IH H); auto.
Qed.

Lemma deleteMany_In gone c d :
  In d (deleteMany gone c) <-> In d c /\ gone d = false.
Proof.
  unfold deleteMany. rewrite filter_In.
  destruct (gone d); simpl; intuition congruence.
Qed.

Lemma deleteMany_NoDup gone c :
  NoDup (map shortCode c) -> NoDup (map shortCode (deleteMany gone c)).
Proof.
  induction c as [|d r IH]; simpl; intros H; [constructor|].
  inversion H as [|? ? Hnin Hnd]; subst.
  destruct (gone d); simpl; [apply IH; exact Hnd|].
  constructor; [|apply IH; exact Hnd].
  intros Hin. apply Hnin. apply in_map_iff in Hin.
  destruct Hin as [x [Hx Hin]]. apply deleteMany_In in Hin.
  rewrite <- Hx. apply in_map. tauto.
Qed.

End CollectionFacts.

(** ** Strings and nanoid *)

Section StringFacts.

Lemma trimEnd_id s :
  Str.all (fun c => negb (Chars.is_space c)) s = true -> Str.trimEnd s = s.
Proof.
  induction s as [|c r IH]; simpl; [reflexivity|].
  intros H. apply andb_true_iff in H. destruct H as [Hc Hr].
  rewrite (IH Hr). apply negb_true_iff in Hc. rewrite Hc.
  destruct r; reflexivity.
Qed.

(** Trimming leaves a string without white space as it is. *)
Lemma trim_id s :
  Str.all (fun c => negb (Chars.is_space c)) s = true -> Str.trim s = s.
Proof.
  intros H. unfold Str.trim.
  assert (Hs : Str.trimStart s = s).
  { destruct s as [|c r]; simpl in *; [reflexivity|].
    apply andb_true_iff in H. destruct H as [Hc _].
    apply negb_true_iff in Hc. now rewrite Hc. }
  rewrite Hs. apply trimEnd_id. exact H.
Qed.

Lemma all_impl (p q : ascii -> bool) s :
  (forall c, p c = true -> q c = true) ->
  Str.all p s = true -> Str.all q s = true.
Proof.
  intros Hpq. induction s as [|c r IH]; simpl; [reflexivity|].
  intros H. apply andb_true_iff in H. destruct H as [Hc Hr].
  rewrite (Hpq _ Hc), (IH Hr). reflexivity.
Qed.

Lemma symbol_not_space c :
  Nanoid.is_symbol c = true -> negb (Chars.is_space c) = true.
Proof.
  destruct c as [[] [] [] [] [] [] [] []]; vm_compute; intros H;
    first [reflexivity | discriminate H].
Qed.

Lemma alnum_is_symbol c : Chars.is_alnum c = true -> Nanoid.is_symbol c = true.
Proof. unfold Nanoid.is_symbol. intros ->. reflexivity. Qed.

Lemma symbol_is_symbol b : Nanoid.is_symbol (Nanoid.symbol b) = true.
Proof.
  unfold Nanoid.symbol.
  assert (Hlt : (N.to_nat (N.land b 63) < 64)%nat).
  { change 63%N with (N.ones 6). rewrite N.land_ones.
    assert (H : (b mod 2 ^ 6 < 2 ^ 6)%N) by (apply N.mod_lt; discriminate).
    change (2 ^ 6)%N with 64%N in *. lia. }
  assert (Hall : forallb
            (fun i => Nanoid.is_symbol
                        match String.get i Nanoid.urlAlphabet with
                        | Some c => c
                        | None => "u"%char
                        end) (seq 0 64) = true) by (vm_compute; reflexivity).
  rewrite forallb_forall in Hall. apply Hall. apply in_seq. lia.
Qed.

Lemma id_length bytes offset size :
  String.length (Nanoid.id bytes offset size) = size.
Proof.
  revert offset. induction size as [|n IH]; intros offset; simpl;
    [reflexivity | now rewrite IH].
Qed.

Lemma id_symbols bytes offset size :
  Str.all Nanoid.is_symbol (Nanoid.id bytes offset size) = true.
Proof.
  revert offset. induction size as [|n IH]; intros offset; simpl;
    [reflexivity | now rewrite symbol_is_symbol, IH].
Qed.

Lemma id_trim bytes offset size :
  Str.trim (Nanoid.id bytes offset size) = Nanoid.id bytes offset size.
Proof.
  apply trim_id. apply (all_impl Nanoid.is_symbol); [|apply id_symbols].
  apply symbol_not_space.
Qed.

End StringFacts.

(** ** Numbers *)

Section NumberFacts.

Lemma nearestEven_comp x y :
  (x == y)%Q -> Binary64.nearestEven x = Binary64.nearestEven y.
Proof.
  intros H. unfold Binary64.nearestEven.
  rewrite (Qfloor_comp _ _ H).
  assert (E : (x - inject_Z (Qfloor y) ?= 1 # 2)%Q
              = (y - inject_Z (Qfloor y) ?= 1 # 2)%Q).
  { apply Qcompare_comp; [now rewrite H | reflexivity]. }
  now rewrite E.
Qed.

Lemma nearestEven_Z j : Binary64.nearestEven (inject_Z j) = j.
Proof.
  unfold Binary64.nearestEven. rewrite Qfloor_Z.
  assert (E : (inject_Z j - inject_Z j ?= 1 # 2)%Q = Lt).
  { rewrite <- Qlt_alt.
    setoid_replace (inject_Z j - inject_Z j)%Q with 0%Q by ring.
    reflexivity. }
  now rewrite E.
Qed.

Lemma nearestEven_ge j y : (inject_Z j <= y)%Q -> j <= Binary64.nearestEven y.
Proof.
  intros H. unfold Binary64.nearestEven.
  assert (Hf : j <= Qfloor y).
  { rewrite <- (Qfloor_Z j). now apply Qfloor_resp_le. }
  destruct (y - inject_Z (Qfloor y) ?= 1 # 2)%Q; [destruct (Z.even _)|..]; lia.
Qed.

Lemma nearestEven_le j y : (y <= inject_Z j)%Q -> Binary64.nearestEven y <= j.
Proof.
  intros H. unfold Binary64.nearestEven.
  destruct (Z.eq_dec (Qfloor y) j) as [E|N].
  - assert (Hy : (y == inject_Z j)%Q).
    { apply Qle_antisym; [exact H|]. rewrite <- E. apply Qfloor_le. }
    assert (C : (y - inject_Z (Qfloor y) ?= 1 # 2)%Q = Lt).
    { rewrite <- Qlt_alt. rewrite E.
      setoid_replace (y - inject_Z j)%Q with 0%Q by (rewrite Hy; ring).
      reflexivity. }
    rewrite C. lia.
  - assert (Hf : Qfloor y <= j).
    { rewrite <- (Qfloor_Z j). now apply Qfloor_resp_le. }
    destruct (y - inject_Z (Qfloor y) ?= 1 # 2)%Q; [destruct (Z.even _)|..]; lia.
Qed.

Lemma pow2_inv s : (Binary64.pow2 s * Binary64.pow2 (- s) == 1)%Q.
Proof.
  unfold Binary64.pow2. rewrite <- Qpower_plus by discriminate.
  now replace (s + - s) with 0 by lia.
Qed.

Lemma pow2_Z s : 0 <= s -> (Binary64.pow2 s == inject_Z (2 ^ s))%Q.
Proof. intros H. unfold Binary64.pow2. now rewrite Zpower_Qpower. Qed.

Lemma pow2_pos s : (0 < Binary64.pow2 s)%Q.
Proof. unfold Binary64.pow2. apply Qpower_0_lt. reflexivity. Qed.

Lemma pow2_mono a b : a <= b -> (Binary64.pow2 a <= Binary64.pow2 b)%Q.
Proof.
  intros H. replace b with (a + (b - a)) by lia.
  unfold Binary64.pow2. rewrite Qpower_plus by discriminate.
  fold (Binary64.pow2 a) (Binary64.pow2 (b - a)).
  rewrite <- (Qmult_1_r (Binary64.pow2 a)) at 1.
  apply Qmult_le_l; [apply pow2_pos|].
  rewrite pow2_Z by lia. change 1%Q with (inject_Z 1). rewrite <- Zle_Qle.
  assert (0 < 2 ^ (b - a)) by (apply Z.pow_pos_nonneg; lia). lia.
Qed.

Lemma pow2_lt_inv a b x :
  (Binary64.pow2 a <= x)%Q -> (x < Binary64.pow2 b)%Q -> a < b.
Proof.
  intros H1 H2. destruct (Z_lt_le_dec a b) as [L|G]; [exact L|].
  exfalso. apply (Qlt_irrefl x).
  apply (Qlt_le_trans _ _ _ H2).
  apply (Qle_trans _ (Binary64.pow2 a)); [now apply pow2_mono | exact H1].
Qed.

(** [exponent x] is not above the binary logarithm of [x]. *)
Lemma exponent_below x :
  (0 < x)%Q -> (Binary64.pow2 (Binary64.exponent x) <= x)%Q.
Proof.
  intros Hx. unfold Binary64.exponent. cbv zeta.
  destruct (Qle_bool _ x) eqn:E; [now apply Qle_bool_iff|].
  destruct x as [a b]. cbn [Qnum Qden].
  assert (Ha : 0 < a).
  { unfold Qlt in Hx. simpl in Hx. lia. }
  set (la := Z.log2 a). set (lb := Z.log2 (Z.pos b)).
  assert (Hla : 2 ^ la <= a) by (apply Z.log2_spec; exact Ha).
  assert (Hlb : Z.pos b < 2 ^ (lb + 1)).
  { replace (lb + 1) with (Z.succ lb) by lia. apply Z.log2_spec. reflexivity. }
  assert (H0 : 0 <= la) by apply Z.log2_nonneg.
  assert (H1 : 0 <= lb) by apply Z.log2_nonneg.
  assert (P : 0 < 2 ^ (lb + 1)) by (apply Z.pow_pos_nonneg; lia).
  apply (Qmult_le_r _ _ (Binary64.pow2 (lb + 1))); [apply pow2_pos|].
  unfold Binary64.pow2 at 1 2. rewrite <- Qpower_plus by discriminate.
  replace (la - lb - 1 + (lb + 1)) with la by lia.
  fold (Binary64.pow2 la). rewrite !pow2_Z by lia.
  unfold Qle, Qmult, inject_Z. cbn [Qnum Qden].
  rewrite Pos2Z.inj_mul. nia.
Qed.

(** And [x] is below the next power of two. *)
Lemma exponent_above x :
  (0 < x)%Q -> (x < Binary64.pow2 (Binary64.exponent x + 1))%Q.
Proof.
  intros Hx. unfold Binary64.exponent. cbv zeta.
  destruct (Qle_bool _ x) eqn:E.
  - destruct x as [a b]. cbn [Qnum Qden].
    assert (Ha : 0 < a).
    { unfold Qlt in Hx. simpl in Hx. lia. }
    set (la := Z.log2 a). set (lb := Z.log2 (Z.pos b)).
    assert (Hla : a < 2 ^ (la + 1)).
    { replace (la + 1) with (Z.succ la) by lia. apply Z.log2_spec. exact Ha. }
    assert (Hlb : 2 ^ lb <= Z.pos b) by (apply Z.log2_spec; reflexivity).
    assert (H0 : 0 <= la) by apply Z.log2_nonneg.
    assert (H1 : 0 <= lb) by apply Z.log2_nonneg.
    assert (P : 0 < 2 ^ lb) by (apply Z.pow_pos_nonneg; lia).
    apply (Qmult_lt_r _ _ (Binary64.pow2 lb)); [apply pow2_pos|].
    unfold Binary64.pow2 at 2 3. rewrite <- Qpower_plus by discriminate.
    replace (la - lb + 1 + lb) with (la + 1) by lia.
    fold (Binary64.pow2 (la + 1)). rewrite !pow2_Z by lia.
    unfold Qlt, Qmult, inject_Z. cbn [Qnum Qden].
    rewrite Pos2Z.inj_mul. nia.
  - replace (Z.log2 (Qnum x) - Z.log2 (Z.pos (Qden x)) - 1 + 1)
      with (Z.log2 (Qnum x) - Z.log2 (Z.pos (Qden x))) by lia.
    apply Qnot_le_lt. intros H. apply Qle_bool_iff in H. congruence.
Qed.

Lemma exponent_lt x b :
  (0 < x)%Q -> (x < Binary64.pow2 b)%Q -> Binary64.exponent x < b.
Proof. intros H0 H. exact (pow2_lt_inv _ _ _ (exponent_below x H0) H). Qed.

(** A positive number on the grid of its own precision is kept. *)
Lemma roundPositive_grid x j :
  (x * Binary64.pow2 (52 - Binary64.exponent x) == inject_Z j)%Q ->
  (Binary64.roundPositive x == x)%Q.
Proof.
  intros H. unfold Binary64.roundPositive. cbv zeta.
  rewrite (nearestEven_comp _ _ H), nearestEven_Z, <- H.
  rewrite <- Qmult_assoc, pow2_inv. ring.
Qed.

Lemma roundPositive_whole x k :
  (x == inject_Z k)%Q -> 0 < k < 2 ^ 53 -> (Binary64.roundPositive x == x)%Q.
Proof.
  intros Hx Hk.
  assert (He : Binary64.exponent x < 53).
  { apply exponent_lt; rewrite Hx.
    - change 0%Q with (inject_Z 0). rewrite <- Zlt_Qlt. lia.
    - rewrite pow2_Z by lia. rewrite <- Zlt_Qlt. lia. }
  apply (roundPositive_grid _ (k * 2 ^ (52 - Binary64.exponent x))).
  rewrite pow2_Z by lia. rewrite inject_Z_mult.
  apply Qmult_comp; [exact Hx | reflexivity].
Qed.

(** An integer below 2^53 is a Number. *)
Lemma round_whole x k :
  (x == inject_Z k)%Q -> Z.abs k < 2 ^ 53 -> (Binary64.round x == inject_Z k)%Q.
Proof.
  intros Hx Hk. unfold Binary64.round.
  destruct (Qcompare_spec x 0) as [E|L|G].
  - now rewrite <- Hx, E.
  - assert (k < 0).
    { rewrite Zlt_Qlt. apply (Qle_lt_trans _ x); [|exact L].
      setoid_rewrite Hx. apply Qle_refl. }
    rewrite (roundPositive_whole (- x) (- k)); [rewrite Hx; ring | | lia].
    rewrite Hx, inject_Z_opp. reflexivity.
  - assert (0 < k).
    { rewrite Zlt_Qlt. apply (Qlt_le_trans _ x); [exact G|].
      setoid_rewrite Hx. apply Qle_refl. }
    rewrite (roundPositive_whole x k); [exact Hx | exact Hx | lia].
Qed.

Lemma number_exact k : Z.abs k < 9007199254740992 -> Binary64.number k = k.
Proof.
  intros Hk. unfold Binary64.number.
  rewrite (Qfloor_comp _ _ (round_whole _ k (Qeq_refl _) Hk)). apply Qfloor_Z.
Qed.

(** Rounding does not cross a number of the grid. *)
Lemma roundPositive_between x g j :
  (g * Binary64.pow2 (52 - Binary64.exponent x) == inject_Z j)%Q ->
  ((g <= x)%Q -> (g <= Binary64.roundPositive x)%Q)
  /\ ((x <= g)%Q -> (Binary64.roundPositive x <= g)%Q).
Proof.
  intros Hg. unfold Binary64.roundPositive. cbv zeta.
  set (s := 52 - Binary64.exponent x) in *.
  assert (Eg : (g == inject_Z j * Binary64.pow2 (- s))%Q).
  { rewrite <- Hg, <- Qmult_assoc, pow2_inv. ring. }
  split; intros H; rewrite Eg.
  - apply Qmult_le_compat_r; [|apply Qlt_le_weak, pow2_pos].
    rewrite <- Zle_Qle. apply nearestEven_ge. rewrite <- Hg.
    apply Qmult_le_compat_r; [exact H | apply Qlt_le_weak, pow2_pos].
  - apply Qmult_le_compat_r; [|apply Qlt_le_weak, pow2_pos].
    rewrite <- Zle_Qle. apply nearestEven_le. rewrite <- Hg.
    apply Qmult_le_compat_r; [exact H | apply Qlt_le_weak, pow2_pos].
Qed.

Lemma toInteger_whole x k : (x == inject_Z k)%Q -> toInteger x = k.
Proof.
  intros H. unfold toInteger.
  rewrite (Qfloor_comp _ _ H), (Qceiling_comp _ _ H), Qfloor_Z, Qceiling_Z.
  now destruct (Qle_bool 0 x).
Qed.

(** The sum of a minute of the hour and of a positive whole number. *)
Lemma add_whole m q n :
  0 <= m <= 59 -> (q == inject_Z n)%Q -> 0 < n < 9007199254740000 ->
  toInteger (Binary64.add (inject_Z m) q) = m + n.
Proof.
  intros Hm Hq Hn. apply toInteger_whole. unfold Binary64.add.
  apply round_whole; [|lia].
  rewrite Hq, <- inject_Z_plus. reflexivity.
Qed.

(** The sum of a minute of the hour and of a positive number is not
    below the minute. *)
Lemma add_ge m q :
  0 <= m <= 59 -> (0 < q)%Q -> m <= toInteger (Binary64.add (inject_Z m) q).
Proof.
  intros Hm Hpos. unfold Binary64.add.
  set (x := (inject_Z m + q)%Q).
  assert (Hm0 : (0 <= inject_Z m)%Q).
  { change 0%Q with (inject_Z 0). rewrite <- Zle_Qle. lia. }
  assert (Hlo : (inject_Z m < x)%Q).
  { unfold x. rewrite <- (Qplus_0_r (inject_Z m)) at 1.
    apply Qplus_lt_r. exact Hpos. }
  assert (Hx : (0 < x)%Q) by (apply (Qle_lt_trans _ (inject_Z m)); assumption).
  assert (R : (inject_Z m <= Binary64.roundPositive x)%Q).
  { destruct (Z_lt_le_dec (Binary64.exponent x) 53) as [Small|Large].
    - destruct (roundPositive_between x (inject_Z m)
                  (m * 2 ^ (52 - Binary64.exponent x))) as [Lo _].
      + rewrite pow2_Z by lia. now rewrite inject_Z_mult.
      + exact (Lo (Qlt_le_weak _ _ Hlo)).
    - unfold Binary64.roundPositive. cbv zeta.
      set (s := 52 - Binary64.exponent x).
      assert (Hy : (inject_Z (2 ^ 52) <= x * Binary64.pow2 s)%Q).
      { rewrite <- pow2_Z by lia.
        replace 52 with (Binary64.exponent x + s) at 1 by (unfold s; lia).
        unfold Binary64.pow2 at 1. rewrite Qpower_plus by discriminate.
        fold (Binary64.pow2 (Binary64.exponent x)) (Binary64.pow2 s).
        apply Qmult_le_compat_r; [apply exponent_below; exact Hx|].
        apply Qlt_le_weak, pow2_pos. }
      apply nearestEven_ge in Hy.
      apply (Qle_trans _ (inject_Z (2 ^ 52) * 1)).
      + rewrite Qmult_1_r. rewrite <- Zle_Qle. lia.
      + apply (Qle_trans _ (inject_Z (Binary64.nearestEven (x * Binary64.pow2 s)) * 1)).
        * apply Qmult_le_compat_r; [rewrite <- Zle_Qle; exact Hy | discriminate].
        * apply Qmult_le_l.
          -- change 0%Q with (inject_Z 0). rewrite <- Zlt_Qlt. lia.
          -- change 1%Q with (Binary64.pow2 0). apply pow2_mono. unfold s. lia. }
  unfold Binary64.round. destruct (Qcompare_spec x 0) as [E|L|G].
  - rewrite E in Hx. discriminate.
  - exfalso. apply (Qlt_irrefl x). now apply (Qlt_trans _ 0).
  - unfold toInteger.
    assert (P : Qle_bool 0 (Binary64.roundPositive x) = true).
    { apply Qle_bool_iff. apply (Qle_trans _ (inject_Z m)); assumption. }
    rewrite P. rewrite <- (Qfloor_Z m). now apply Qfloor_resp_le.
Qed.

(** The sum of a minute of the hour and of at most half a minute keeps
    the minute. *)
Lemma add_half m q :
  0 <= m <= 59 -> (0 < q)%Q -> (q <= 1 # 2)%Q ->
  toInteger (Binary64.add (inject_Z m) q) = m.
Proof.
  intros Hm Hpos Hhalf. unfold Binary64.add.
  set (x := (inject_Z m + q)%Q).
  assert (Hlo : (inject_Z m < x)%Q).
  { unfold x. rewrite <- (Qplus_0_r (inject_Z m)) at 1.
    apply Qplus_lt_r. exact Hpos. }
  assert (Hhi : (x <= inject_Z m + (1 # 2))%Q).
  { unfold x. apply Qplus_le_r. exact Hhalf. }
  assert (Hm0 : (0 <= inject_Z m)%Q).
  { change 0%Q with (inject_Z 0). rewrite <- Zle_Qle. lia. }
  assert (Hx : (0 < x)%Q) by (apply (Qle_lt_trans _ (inject_Z m)); assumption).
  unfold Binary64.round. destruct (Qcompare_spec x 0) as [E|L|G].
  - rewrite E in Hx. discriminate.
  - exfalso. apply (Qlt_irrefl x). now apply (Qlt_trans _ 0).
  - assert (He : Binary64.exponent x < 6).
    { apply exponent_lt; [exact Hx|].
      apply (Qle_lt_trans _ _ _ Hhi).
      change (Binary64.pow2 6) with (inject_Z 64).
      apply (Qlt_le_trans _ (inject_Z m + 1)).
      - apply Qplus_lt_r. reflexivity.
      - change 1%Q with (inject_Z 1). rewrite <- inject_Z_plus, <- Zle_Qle. lia. }
    set (s := 52 - Binary64.exponent x).
    assert (Hs : 1 <= s) by (unfold s; lia).
    destruct (roundPositive_between x (inject_Z m) (m * 2 ^ s)) as [Lo _].
    { fold s. rewrite pow2_Z by lia. now rewrite inject_Z_mult. }
    destruct (roundPositive_between x (inject_Z m + (1 # 2))
                ((2 * m + 1) * 2 ^ (s - 1))) as [_ Hi].
    { fold s. replace s with (1 + (s - 1)) at 1 by lia.
      unfold Binary64.pow2. rewrite Qpower_plus by discriminate.
      fold (Binary64.pow2 (s - 1)).
      rewrite pow2_Z by lia. rewrite inject_Z_mult, inject_Z_plus, inject_Z_mult.
      change (2 ^ 1)%Q with 2%Q. change (inject_Z 2) with 2%Q.
      change (inject_Z 1) with 1%Q. field. }
    specialize (Lo (Qlt_le_weak _ _ Hlo)). specialize (Hi Hhi).
    assert (F1 : m <= Qfloor (Binary64.roundPositive x)).
    { rewrite <- (Qfloor_Z m). now apply Qfloor_resp_le. }
    assert (F2 : Qfloor (Binary64.roundPositive x) < m + 1).
    { rewrite Zlt_Qlt.
      apply (Qle_lt_trans _ (Binary64.roundPositive x)); [apply Qfloor_le|].
      apply (Qle_lt_trans _ _ _ Hi). rewrite inject_Z_plus.
      apply Qplus_lt_r. reflexivity. }
    unfold toInteger.
    assert (P : Qle_bool 0 (Binary64.roundPositive x) = true).
    { apply Qle_bool_iff. apply (Qle_trans _ (inject_Z m)); assumption. }
    rewrite P. lia.
Qed.

End NumberFacts.

(** ** Expiry dates *)

Section DateFacts.

Lemma getMinutes_bounds tz t : 0 <= getMinutes tz t <= 59.
Proof.
  unfold getMinutes, minFromTime.
  pose proof (Z.mod_pos_bound (localTime tz t / msPerMinute) 60). lia.
Qed.

(** The fields of a time value. *)
Lemma time_fields t :
  t = day t * msPerDay + hourFromTime t * msPerHour + minFromTime t * msPerMinute
      + secFromTime t * msPerSecond + msFromTime t.
Proof.
  unfold day, hourFromTime, minFromTime, secFromTime, msFromTime,
    msPerDay, msPerHour, msPerMinute, msPerSecond.
  Z.div_mod_to_equations. lia.
Qed.

(** For a date from 1970 on whose result stays in the range of [Date], in
    a zone whose offset is the same before and after, [setMinutes] moves
    the date by the difference of the minutes, and no sum or product is
    rounded. *)
Lemma setMinutes_whole tz off t min k :
  Z.abs off < msPerDay ->
  offsetAt tz t = off ->
  offsetOfLocal tz (t + off + (k - getMinutes tz t) * msPerMinute) = off ->
  0 <= t + off ->
  getMinutes tz t <= k ->
  t + off + (k - getMinutes tz t) * msPerMinute <= 8640000000000000 ->
  toInteger min = k ->
  setMinutes tz t min = timeClip (t + (k - getMinutes tz t) * msPerMinute).
Proof.
  intros Hoff Hat Hlocal H0 Hk Hmax Hi.
  unfold setMinutes, getMinutes in *. cbv zeta.
  unfold localTime, utcTime in *. rewrite Hat in *. rewrite Hi.
  set (lt := t + off) in *.
  pose proof (time_fields lt) as F.
  assert (Hd : 0 <= day lt) by (unfold day, msPerDay; apply Z.div_pos; lia).
  assert (Hh : 0 <= hourFromTime lt < 24)
    by (unfold hourFromTime; apply Z.mod_pos_bound; lia).
  assert (Hmi : 0 <= minFromTime lt < 60)
    by (unfold minFromTime; apply Z.mod_pos_bound; lia).
  assert (Hs : 0 <= secFromTime lt < 60)
    by (unfold secFromTime; apply Z.mod_pos_bound; lia).
  assert (Hms : 0 <= msFromTime lt < 1000)
    by (unfold msFromTime, msPerSecond; apply Z.mod_pos_bound; lia).
  unfold makeDate, makeTime, Binary64.addInt, Binary64.mulInt.
  unfold msPerDay, msPerHour, msPerMinute, msPerSecond in *.
  repeat match goal with
  | |- context [Binary64.number ?a] =>
      lazymatch a with
      | context [Binary64.number _] => fail
      | context [offsetOfLocal tz ?b] =>
          replace b with (lt + (k - minFromTime lt) * 60000) by lia;
          rewrite Hlocal
      | _ => rewrite (number_exact a) by lia
      end
  end.
  f_equal. lia.
Qed.

(** A validity that passes line 48 is absent or a positive number. *)
Lemma validity_accepted v :
  validityRejected v = false ->
  v = JUndefined \/ exists q, v = JNumber q /\ (0 < q)%Q.
Proof.
  destruct v as [| |b|q|s|]; simpl; try discriminate; auto.
  intros H. right. exists q. split; [reflexivity|].
  apply Qnot_le_lt. intros Hle. apply Qle_bool_iff in Hle.
  unfold validityRejected in H. simpl in H. congruence.
Qed.

Lemma calculateExpiry_positive tz now q :
  (0 < q)%Q ->
  calculateExpiry tz now (JNumber q)
  = Some (setMinutes tz now (Binary64.add (inject_Z (getMinutes tz now)) q)).
Proof.
  intros Hq. unfold calculateExpiry, truthy.
  assert (Hne : Qeq_bool q 0 = false).
  { destruct (Qeq_bool q 0) eqn:E; [|reflexivity].
    apply Qeq_bool_iff in E. rewrite E in Hq. discriminate. }
  assert (Hle : Qle_bool q 0 = false).
  { destruct (Qle_bool q 0) eqn:E; [|reflexivity].
    apply Qle_bool_iff in E. exfalso. exact (Qlt_not_le _ _ Hq E). }
  now rewrite Hne, Hle.
Qed.

Lemma jsOr_positive q : (0 < q)%Q -> jsOr (JNumber q) (JNumber 30) = JNumber q.
Proof.
  intros Hq. unfold jsOr, truthy.
  destruct (Qeq_bool q 0) eqn:E; [|reflexivity].
  apply Qeq_bool_iff in E. rewrite E in Hq. discriminate.
Qed.

(** Step 4 of [createShortUrl] computes a date, valid or not, for every
    validity that passed line 48. *)
Lemma expiryOf_accepted clk v :
  validityRejected v = false -> exists date, expiryOf clk v = Some date.
Proof.
  intros H. unfold expiryOf.
  destruct (validity_accepted v H) as [-> | [q [-> Hq]]].
  - change (jsOr JUndefined (JNumber 30)) with (JNumber 30).
    rewrite calculateExpiry_positive by reflexivity. eauto.
  - rewrite (jsOr_positive _ Hq), (calculateExpiry_positive _ _ _ Hq). eauto.
Qed.

(** The expiry of a positive number of minutes. *)
Lemma expiryOf_number clk q off :
  (0 < q)%Q -> steady clk (minutesAdded clk q) off ->
  expiryOf clk (JNumber q)
  = Some (timeClip (atExpiry clk + minutesAdded clk q * msPerMinute)).
Proof.
  intros Hpos (Hoff & Hat & Hlocal & H0 & Hmax). unfold expiryOf.
  rewrite (jsOr_positive _ Hpos), (calculateExpiry_positive _ _ _ Hpos). f_equal.
  pose proof (getMinutes_bounds (zone clk) (atExpiry clk)) as Hm.
  pose proof (add_ge _ q Hm Hpos) as Hge.
  unfold minutesAdded in *.
  apply (setMinutes_whole (zone clk) off); try assumption. reflexivity.
Qed.

Lemma minutesAdded_whole clk q n :
  (q == inject_Z n)%Q -> 0 < n < 9007199254740000 -> minutesAdded clk q = n.
Proof.
  intros Hq Hn. unfold minutesAdded.
  rewrite (add_whole _ q n (getMinutes_bounds _ _) Hq Hn). lia.
Qed.

Lemma minutesAdded_half clk q :
  (0 < q)%Q -> (q <= 1 # 2)%Q -> minutesAdded clk q = 0.
Proof.
  intros Hpos Hhalf. unfold minutesAdded.
  rewrite (add_half _ q (getMinutes_bounds _ _) Hpos Hhalf). lia.
Qed.

(** The expiry of a whole number of minutes. *)
Lemma expiryOf_whole clk v n off :
  wholeMinutes v n -> steady clk n off ->
  expiryOf clk v = Some (timeClip (atExpiry clk + n * msPerMinute)).
Proof.
  intros Hw (Hoff & Hat & Hlocal & H0 & Hmax).
  assert (Hq : exists q, jsOr v (JNumber 30) = JNumber q
                         /\ (q == inject_Z n)%Q /\ 0 < n).
  { destruct Hw as [[-> ->] | (q & -> & Hq & Hn)].
    - exists 30%Q. repeat split; reflexivity.
    - exists q. split; [|auto]. apply jsOr_positive.
      rewrite Hq. change 0%Q with (inject_Z 0). now rewrite <- Zlt_Qlt. }
  unfold expiryOf. destruct Hq as (q & -> & Hq & Hn).
  assert (Hpos : (0 < q)%Q).
  { rewrite Hq. change 0%Q with (inject_Z 0). now rewrite <- Zlt_Qlt. }
  rewrite (calculateExpiry_positive _ _ _ Hpos). f_equal.
  pose proof (getMinutes_bounds (zone clk) (atExpiry clk)) as Hm.
  unfold msPerMinute in *.
  rewrite (setMinutes_whole (zone clk) off (atExpiry clk) _
             (getMinutes (zone clk) (atExpiry clk) + n)); unfold msPerMinute.
  - f_equal. lia.
  - exact Hoff.
  - exact Hat.
  - rewrite <- Hlocal. f_equal. lia.
  - exact H0.
  - lia.
  - lia.
  - apply add_whole; [exact Hm | exact Hq | lia].
Qed.

(** The expiry of at most half a minute is the time of the request. *)
Lemma expiryOf_half clk q off :
  (0 < q)%Q -> (q <= 1 # 2)%Q -> steady clk 0 off ->
  expiryOf clk (JNumber q) = Some (timeClip (atExpiry clk)).
Proof.
  intros Hpos Hhalf (Hoff & Hat & Hlocal & H0 & Hmax). unfold expiryOf.
  rewrite (jsOr_positive _ Hpos), (calculateExpiry_positive _ _ _ Hpos). f_equal.
  pose proof (getMinutes_bounds (zone clk) (atExpiry clk)) as Hm.
  unfold msPerMinute in *.
  rewrite (setMinutes_whole (zone clk) off (atExpiry clk) _
             (getMinutes (zone clk) (atExpiry clk))); unfold msPerMinute.
  - f_equal. lia.
  - exact Hoff.
  - exact Hat.
  - rewrite <- Hlocal. f_equal. lia.
  - exact H0.
  - lia.
  - lia.
  - apply add_half; assumption.
Qed.

End DateFacts.

(** ** The create path *)

Section CreateFacts.

Variable urlParses : string -> bool.
Variable randomBytes : nat -> N.

(** A generated code is a nanoid of five symbols that no document of
    the collection carries. *)
Lemma generate_Some remaining offset c code offset' :
  generate randomBytes remaining offset c = (Some code, offset') ->
  (exists o, code = nanoid5 randomBytes o) /\ findOne code c = None.
Proof.
  revert offset. induction remaining as [|k IH]; intros offset; simpl.
  - discriminate.
  - destruct (findOne (nanoid5 randomBytes offset) c) eqn:E.
    + apply IH.
    + intros H. inversion H; subst. split; [eauto | exact E].
Qed.

Lemma generateCode_docs w x wc :
  generateCode randomBytes w = (x, wc) -> docs wc = docs w.
Proof.
  unfold generateCode.
  destruct (generate randomBytes MAX_ATTEMPTS (poolOffset w) (docs w)) as [[code|] off];
    intros H; inversion H; reflexivity.
Qed.

(** Steps 2 and 3 never touch the collection. *)
Lemma chooseCode_docs custom w x wc :
  chooseCode randomBytes custom w = (x, wc) -> docs wc = docs w.
Proof.
  unfold chooseCode. destruct custom as [s|]; [|apply generateCode_docs].
  destruct (Str.truthy s); [|apply generateCode_docs].
  destruct (findOne s (docs w)); [intros H; inversion H; reflexivity|].
  destruct (negb (customCodeFormat s)); intros H; inversion H; reflexivity.
Qed.

(** An early return of steps 2 and 3 is a failure. *)
Lemma chooseCode_early custom w early wc :
  chooseCode randomBytes custom w = (inl early, wc) ->
  early = CodeConflict \/ early = CodeFormatInvalid \/ early = GenerationExhausted.
Proof.
  unfold chooseCode, generateCode.
  destruct (generate randomBytes MAX_ATTEMPTS (poolOffset w) (docs w)) as [[code|] off].
  - destruct custom as [s|]; [|discriminate].
    destruct (Str.truthy s); [|discriminate].
    destruct (findOne s (docs w)); [intros H; inversion H; auto|].
    destruct (negb (customCodeFormat s)); intros H; inversion H; auto.
  - destruct custom as [s|]; [|intros H; inversion H; auto].
    destruct (Str.truthy s); [|intros H; inversion H; auto].
    destruct (findOne s (docs w)); [intros H; inversion H; auto|].
    destruct (negb (customCodeFormat s)); intros H; inversion H; auto.
Qed.

Lemma early_not_201 early :
  early = CodeConflict \/ early = CodeFormatInvalid \/ early = GenerationExhausted ->
  statusOf early <> 201.
Proof. intros [-> | [-> | ->]]; simpl; discriminate. Qed.

Lemma saveNew_Saved tNew tSave target code expiry c d c' :
  saveNew tNew tSave target code expiry c = Saved d c' ->
  validateNew tSave (Str.trim target) (Str.trim code) expiry = []
  /\ lookup (Str.trim code) c = None
  /\ d = mkUrl (Str.trim target) (Str.trim code) tNew (dateValue expiry) 0 []
  /\ c' = (c ++ [d])%list.
Proof.
  unfold saveNew.
  destruct (validateNew tSave (Str.trim target) (Str.trim code) expiry) eqn:V;
    [|discriminate].
  destruct (lookup (Str.trim code) c) eqn:F; [discriminate|].
  intros H. inversion H; subst. auto.
Qed.

(** What a 201 answer of [createShortUrl] implies (lines 39-109): every
    check was passed, and the document of the answer was appended. *)
Lemma createShortUrl_201 clk body w v w' :
  createShortUrl urlParses randomBytes clk body w = (Json 201 v, w') ->
  exists target code wc d,
    url body = Some target /\ Str.truthy target = true
    /\ urlParses target = true
    /\ validityRejected (validity body) = false
    /\ chooseCode randomBytes (shortcode body) w = (inr code, wc)
    /\ saveNew (atNew clk) (atSave clk) target code
         (expiryOf clk (validity body))
         (docs w)
       = Saved d (docs w ++ [d])%list
    /\ v = CreatedView (shortCode d) (originalUrl d) (expiresAt d)
    /\ w' = mkWorld (docs w ++ [d])%list (poolOffset wc).
Proof.
  unfold createShortUrl, isValidUrl.
  destruct (url body) as [target|]; [|discriminate].
  destruct (Str.truthy target) eqn:Ht; simpl; [|discriminate].
  destruct (urlParses target) eqn:Hp; simpl; [|discriminate].
  destruct (validityRejected (validity body)) eqn:Hv; [discriminate|].
  destruct (chooseCode randomBytes (shortcode body) w) as [[early|code] wc] eqn:Hc.
  - intros H. apply chooseCode_early, early_not_201 in Hc.
    inversion H; subst. simpl in Hc. congruence.
  - pose proof (chooseCode_docs _ _ _ _ Hc) as Hd. rewrite Hd.
    destruct (saveNew _ _ _ _ _ _) as [d c'| |] eqn:Hs; try discriminate.
    intros H. inversion H; subst.
    pose proof (saveNew_Saved _ _ _ _ _ _ _ _ Hs) as [_ [_ [_ Hc']]].
    exists target, code, wc, d. rewrite Hc' in *. repeat split; auto.
Qed.

(** Every other answer leaves the collection as it was. *)
Lemma createShortUrl_docs clk body w :
  statusOf (fst (createShortUrl urlParses randomBytes clk body w)) <> 201 ->
  docs (snd (createShortUrl urlParses randomBytes clk body w)) = docs w.
Proof.
  unfold createShortUrl.
  destruct (url body) as [target|]; [|reflexivity].
  destruct (negb (Str.truthy target)); [reflexivity|].
  destruct (negb (isValidUrl urlParses target)); [reflexivity|].
  destruct (validityRejected (validity body)); [reflexivity|].
  destruct (chooseCode randomBytes (shortcode body) w) as [[early|code] wc] eqn:Hc.
  - intros _. simpl. exact (chooseCode_docs _ _ _ _ Hc).
  - destruct (saveNew _ _ _ _ _ _) as [d c'| |]; simpl.
    + congruence.
    + intros _. exact (chooseCode_docs _ _ _ _ Hc).
    + intros _. exact (chooseCode_docs _ _ _ _ Hc).
Qed.

(** The status 201 only comes with the created view. *)
Lemma createShortUrl_201_view clk body w :
  statusOf (fst (createShortUrl urlParses randomBytes clk body w)) = 201 ->
  exists v, fst (createShortUrl urlParses randomBytes clk body w) = Json 201 v.
Proof.
  unfold createShortUrl.
  destruct (url body) as [target|]; [|simpl; discriminate].
  destruct (negb (Str.truthy target)); [simpl; discriminate|].
  destruct (negb (isValidUrl urlParses target)); [simpl; discriminate|].
  destruct (validityRejected (validity body)); [simpl; discriminate|].
  destruct (chooseCode randomBytes (shortcode body) w) as [[early|code] wc] eqn:Hc.
  - intros H. simpl in H. apply chooseCode_early, early_not_201 in Hc.
    contradiction.
  - destruct (saveNew _ _ _ _ _ _) as [d c'| |]; simpl;
      first [discriminate | eauto].
Qed.

(** The two outcomes of a create request for the collection: nothing, or
    one fresh document at the end. *)
Lemma createShortUrl_effect clk body w :
  let r := createShortUrl urlParses randomBytes clk body w in
  docs (snd r) = docs w
  \/ exists v, fst r = Json 201 v.
Proof.
  intros r.
  destruct (Z.eq_dec (statusOf (fst r)) 201) as [E|E].
  - right. apply createShortUrl_201_view. exact E.
  - left. apply createShortUrl_docs. exact E.
Qed.

(** The same, with the document that a 201 adds. *)
Lemma createShortUrl_added clk body w :
  let r := createShortUrl urlParses randomBytes clk body w in
  let expiry := expiryOf clk (validity body) in
  docs (snd r) = docs w
  \/ exists target code d,
       docs (snd r) = (docs w ++ [d])%list
       /\ validityRejected (validity body) = false
       /\ validateNew (atSave clk) (Str.trim target) (Str.trim code) expiry = []
       /\ lookup (Str.trim code) (docs w) = None
       /\ d = mkUrl (Str.trim target) (Str.trim code) (atNew clk)
                    (dateValue expiry) 0 [].
Proof.
  intros r expiry. subst r.
  destruct (createShortUrl_effect clk body w) as [E|[v E]]; [left; exact E|right].
  destruct (createShortUrl urlParses randomBytes clk body w) as [resp w'] eqn:R.
  simpl in E. subst resp. apply createShortUrl_201 in R.
  destruct R as (target & code & wc & d & _ & _ & _ & Hv & _ & Hs & _ & ->).
  apply saveNew_Saved in Hs. destruct Hs as (Hval & Hf & Hd & _).
  exists target, code, d. simpl. auto.
Qed.

End CreateFacts.

(** ** Validation *)

Section ValidationFacts.

(** The validators are independent: those of [originalUrl] and
    [shortCode], and the one of [expiresAt]. *)
Lemma validateNew_nil now target code expiry :
  validateNew now target code expiry = []
  <-> validateNew 0 target code None = []
      /\ match expiry with
         | None => True
         | Some InvalidDate => False
         | Some (DateValue v) => now < v
         end.
Proof.
  unfold validateNew.
  destruct (Str.truthy target && originalUrlMatch target);
    [|simpl; split; [discriminate | intros [H _]; discriminate H]].
  destruct (Str.truthy code && (5 <=? String.length code)%nat
            && (String.length code <=? 10)%nat);
    [|simpl; split; [discriminate | intros [H _]; discriminate H]].
  simpl. destruct expiry as [[v|]|].
  - destruct (now <? v) eqn:E.
    + apply Z.ltb_lt in E. tauto.
    + apply Z.ltb_ge in E. split; [discriminate | intros [_ H]; lia].
  - split; [discriminate | tauto].
  - tauto.
Qed.

Lemma validateNew_expiry now target code dt :
  validateNew now target code (Some dt) = [] ->
  exists v, dt = DateValue v /\ now < v.
Proof.
  intros H. apply validateNew_nil in H. destruct H as [_ H].
  destruct dt as [v|]; [eauto | contradiction].
Qed.

Lemma validateNew_url now target code expiry :
  validateNew now target code expiry = [] -> originalUrlMatch target = true.
Proof.
  unfold validateNew. intros H. apply app_eq_nil in H. destruct H as [H _].
  destruct (Str.truthy target); simpl in H; [|discriminate].
  destruct (originalUrlMatch target); [reflexivity|discriminate].
Qed.

Lemma validateNew_url_fails now target code expiry :
  originalUrlMatch target = false ->
  In "originalUrl" (validateNew now target code expiry).
Proof.
  unfold validateNew. intros ->. rewrite andb_false_r.
  apply in_or_app. left. left. reflexivity.
Qed.

(** A stored document passes the validation of a save when it is valid
    and its expiry, if any, is still ahead. *)
Lemma validateExisting_nil now d :
  validateExisting now d = []
  <-> schemaValid d
      /\ match expiresAt d with
         | None => True
         | Some e => now < e
         end.
Proof.
  unfold validateExisting, schemaValid. rewrite validateNew_nil.
  destruct (expiresAt d); simpl; tauto.
Qed.

Lemma timeClip_value x v : timeClip x = DateValue v -> v = x.
Proof.
  unfold timeClip. destruct (Z.abs x <=? 8640000000000000); congruence.
Qed.

End ValidationFacts.

(** ** The redirect path *)

Section RedirectFacts.

Lemma recordClick_counted ev d : counted d -> counted (recordClick ev d).
Proof.
  unfold counted, recordClick. simpl. intros ->.
  rewrite length_app. reflexivity.
Qed.

(** What a redirect does to the collection: nothing, or the save of the
    document it found with one more click. *)
Lemma redirect_cases clk req c :
  let r := redirectToOriginal clk req c in
  snd r = c /\ (forall target, fst r <> Redirect target)
  \/ exists d, findOne (paramShortCode req) c = Some d
               /\ isExpired d (atCheck clk) = false
               /\ validateExisting (atStore clk) d = []
               /\ r = (Redirect (originalUrl d),
                       saveExisting (recordClick (clickOf (atClick clk) req) d) c).
Proof.
  unfold redirectToOriginal.
  destruct (findOne (paramShortCode req) c) as [d|] eqn:F;
    [|left; split; [reflexivity | discriminate]].
  destruct (isExpired d (atCheck clk)) eqn:E;
    [left; split; [reflexivity | discriminate]|].
  change (validateExisting (atStore clk)
            (recordClick (clickOf (atClick clk) req) d))
    with (validateExisting (atStore clk) d).
  destruct (validateExisting (atStore clk) d) eqn:V;
    [|left; split; [reflexivity | discriminate]].
  right. exists d. auto.
Qed.

Lemma redirect_served clk req c d :
  findOne (paramShortCode req) c = Some d ->
  isExpired d (atCheck clk) = false ->
  validateExisting (atStore clk) d = [] ->
  exists c',
    redirectToOriginal clk req c = (Redirect (originalUrl d), c')
    /\ served (clickOf (atClick clk) req) c c' d
    /\ findOne (paramShortCode req) c'
       = Some (recordClick (clickOf (atClick clk) req) d).
Proof.
  intros F E V. unfold redirectToOriginal. rewrite F, E.
  change (validateExisting (atStore clk)
            (recordClick (clickOf (atClick clk) req) d))
    with (validateExisting (atStore clk) d).
  rewrite V. eexists. split; [reflexivity|].
  pose proof (findOne_Some _ _ _ F) as [_ Hcode].
  split.
  - apply (saveExisting_lookup _ _ _ _ F). exact Hcode.
  - apply (lookup_saveExisting _ _ d); [exact F | exact Hcode].
Qed.

End RedirectFacts.

(** ** Invariants of the collection *)

Section Invariants.

Variable urlParses : string -> bool.
Variable randomBytes : nat -> N.

Lemma redirect_consistent clk req c :
  consistent c -> consistent (snd (redirectToOriginal clk req c)).
Proof.
  intros (Hc & Hn & Hv).
  destruct (redirect_cases clk req c) as [[E _]|(d & F & _ & V & E)];
    rewrite E; [repeat split; assumption|].
  simpl. apply findOne_Some in F. destruct F as [Hin Hcode].
  rewrite Forall_forall in Hc, Hv.
  split; [|split].
  - apply Forall_forall. intros x Hx. apply saveExisting_In in Hx.
    destruct Hx as [->|Hx]; [|auto].
    apply recordClick_counted. auto.
  - rewrite saveExisting_codes; [exact Hn|].
    simpl. apply in_map. exact Hin.
  - apply Forall_forall. intros x Hx. apply saveExisting_In in Hx.
    destruct Hx as [->|Hx]; [|auto].
    exact (Hv d Hin).
Qed.

Lemma create_consistent clk body w :
  consistent (docs w) ->
  consistent (docs (snd (createShortUrl urlParses randomBytes clk body w))).
Proof.
  intros (Hc & Hn & Hv).
  destruct (createShortUrl_added urlParses randomBytes clk body w)
    as [E|(target & code & d & E & _ & Hval & Hf & Hd)]; rewrite E.
  - repeat split; assumption.
  - split; [|split].
    + apply Forall_app. split; [exact Hc|].
      constructor; [|constructor]. subst d. reflexivity.
    + rewrite map_app. simpl.
      apply NoDup_app; [exact Hn | constructor; [tauto|constructor] | ].
      intros a Ha [Hb|[]]. subst a.
      apply lookup_None_codes in Hf. apply Hf. subst d. exact Ha.
    + apply Forall_app. split; [exact Hv|].
      constructor; [|constructor]. subst d. unfold schemaValid. simpl.
      apply validateNew_nil in Hval. tauto.
Qed.

Lemma evict_consistent gone c : consistent c -> consistent (deleteMany gone c).
Proof.
  intros (Hc & Hn & Hv). rewrite Forall_forall in Hc, Hv.
  split; [|split]; [|apply deleteMany_NoDup; exact Hn|];
    apply Forall_forall; intros d Hd; apply deleteMany_In in Hd;
    destruct Hd as [Hd _]; auto.
Qed.

Lemma handle_consistent r w :
  consistent (docs w) ->
  consistent (docs (snd (handle urlParses randomBytes r w))).
Proof.
  intros H. destruct r as [clk body|now code|clk req| |gone]; simpl.
  - pose proof (create_consistent clk body w H) as Hc.
    destruct (createShortUrl urlParses randomBytes clk body w). exact Hc.
  - exact H.
  - pose proof (redirect_consistent clk req (docs w) H) as Hc.
    destruct (redirectToOriginal clk req (docs w)). exact Hc.
  - exact H.
  - apply evict_consistent. exact H.
Qed.

(** The invariant holds in every world the service reaches. *)
Lemma reachable_consistent w :
  reachable urlParses randomBytes w -> consistent (docs w).
Proof.
  induction 1 as [|r w Hw IH].
  - repeat split; constructor.
  - apply handle_consistent. exact IH.
Qed.

End Invariants.

(** ** Generated codes *)

(** C1, as stated, fails: with random bytes equal to 8 the create request
    answers 201 with the code ["-----"], which is not alphanumeric. *)
Lemma C1_generated_code_not_alphanumeric :
  fst (Sample.create Sample.eights Sample.plain initial)
  = Json 201 (CreatedView "-----" "https://example.com/a" (Some 1801000))
  /\ alphanumeric5 "-----" = false.
Proof. split; vm_compute; reflexivity. Qed.

(** C1, amended.  When a create request without a custom code answers 201,
    the returned code has five characters, each of nanoid's alphabet
    [A-Za-z0-9_-], it is the code of no document that was in the
    collection, and it is the code of the document that was added. *)
Theorem C1_generated_code
    (urlParses : string -> bool) (randomBytes : nat -> N)
    (clk : CreateClock) (body : CreateBody) (w w' : World)
    (code target : string) (e : option Z) :
  shortcode body = None \/ shortcode body = Some "" ->
  createShortUrl urlParses randomBytes clk body w
  = (Json 201 (CreatedView code target e), w') ->
  String.length code = 5%nat
  /\ Str.all Nanoid.is_symbol code = true
  /\ (forall d, In d (docs w) -> shortCode d <> code)
  /\ exists d, docs w' = (docs w ++ [d])%list /\ shortCode d = code.
Proof.
  intros Hnone H. apply createShortUrl_201 in H.
  destruct H as (t & code0 & wc & d & _ & _ & _ & _ & Hc & Hs & Hv & ->).
  apply saveNew_Saved in Hs. destruct Hs as (_ & _ & Hd & _).
  assert (Hg : generateCode randomBytes w = (inr code0, wc)).
  { destruct Hnone as [E|E]; rewrite E in Hc; exact Hc. }
  unfold generateCode in Hg.
  destruct (generate randomBytes MAX_ATTEMPTS (poolOffset w) (docs w))
    as [[c0|] off] eqn:G; inversion Hg; subst c0 wc.
  apply generate_Some in G. destruct G as [[o Ho] Hfree].
  assert (Hcode : code = code0).
  { inversion Hv. subst d. simpl. subst code0. apply id_trim. }
  subst code.
  split; [|split; [|split]].
  - rewrite Ho. apply id_length.
  - rewrite Ho. apply id_symbols.
  - intros x Hx. pose proof (findOne_None _ _ Hfree x Hx) as Hne.
    rewrite Ho in Hne. unfold nanoid5 in Hne. rewrite id_trim in Hne.
    rewrite Ho. exact Hne.
  - exists d. split; [reflexivity|]. subst d. simpl.
    rewrite Ho. apply id_trim.
Qed.

Lemma C1_generated_code_witness :
  String.length "usean" = 5%nat
  /\ Str.all Nanoid.is_symbol "usean" = true
  /\ (forall d, In d (docs initial) -> shortCode d <> "usean")
  /\ exists d,
       docs (snd (Sample.create Sample.counting Sample.plain initial))
       = (docs initial ++ [d])%list
       /\ shortCode d = "usean".
Proof.
  apply (C1_generated_code Whatwg.schemePrefix Sample.counting Sample.clock
           Sample.plain initial
           (snd (Sample.create Sample.counting Sample.plain initial))
           "usean" "https://example.com/a" (Some 1801000)).
  - left. reflexivity.
  - vm_compute. reflexivity.
Defined.

(** ** Expiry *)

(** C2, as stated, fails at the boundary: a document whose [expiresAt] is
    equal to the current time is not treated as expired, and its
    statistics are served. *)
Lemma C2_boundary_not_gone :
  expiresAt (Sample.stored (Some 1000)) = Some 1000
  /\ 1000 <= 1000
  /\ isExpired (Sample.stored (Some 1000)) 1000 = false
  /\ getShortUrlStats 1000 "abcde" [Sample.stored (Some 1000)]
     = Json 200 (StatsView "abcde" "https://example.com/a" 0 (Some 1000) 0 []).
Proof. repeat split; vm_compute; solve [reflexivity | discriminate]. Qed.

(** C2, amended.  A stored document is treated as expired if and only if
    its [expiresAt] is set and strictly before the current time.  For such
    a document, still in the collection, the statistics and the redirect
    both answer Gone (410) and not NotFound; a document whose [expiresAt]
    is null is never treated as expired: its statistics are served and
    its redirect is not answered with Gone. *)
Theorem C2_expired_is_gone
    (clk : VisitClock) (req : RedirectRequest) (c : Collection) (d : UrlDoc) :
  findOne (paramShortCode req) c = Some d ->
  let now := atCheck clk in
  (isExpired d now = true <-> exists e, expiresAt d = Some e /\ e < now)
  /\ (isExpired d now = true ->
      getShortUrlStats now (paramShortCode req) c = StatsGone
      /\ redirectToOriginal clk req c = (RedirectGone, c))
  /\ (expiresAt d = None ->
      isExpired d now = false
      /\ statusOf (getShortUrlStats now (paramShortCode req) c) = 200
      /\ statusOf (fst (redirectToOriginal clk req c)) <> 410).
Proof.
  intros F now. subst now.
  unfold getShortUrlStats, redirectToOriginal. rewrite F.
  split; [|split].
  - unfold isExpired. destruct (expiresAt d) as [e|].
    + rewrite Z.ltb_lt. split.
      * intros H. exists e. auto.
      * intros [e' [He H]]. inversion He. subst. exact H.
    + split; [discriminate|]. intros [e [He _]]. discriminate.
  - intros ->. auto.
  - intros Hn. unfold isExpired. rewrite Hn.
    split; [reflexivity|]. split; [reflexivity|].
    destruct (validateExisting _ _); simpl; discriminate.
Qed.

Lemma C2_expired_is_gone_witness :
  getShortUrlStats 1001 "abcde" [Sample.stored (Some 1000)] = StatsGone
  /\ redirectToOriginal (Sample.instant 1001) Sample.visit [Sample.stored (Some 1000)]
     = (RedirectGone, [Sample.stored (Some 1000)]).
Proof.
  apply (C2_expired_is_gone (Sample.instant 1001) Sample.visit
           [Sample.stored (Some 1000)] (Sample.stored (Some 1000))).
  - reflexivity.
  - reflexivity.
Defined.

(** C3, as stated, fails for a validity that is not a whole number: with
    [validity = 1.5] the record is persisted with an expiry one minute, not
    one and a half minutes, after the time of the request. *)
Lemma C3_fraction_truncated :
  docs (snd (Sample.create Sample.counting (Sample.withValidity (3 # 2)) initial))
  = [mkUrl "https://example.com/a" "usean" 1001
           (Some (atExpiry Sample.clock + 1 * msPerMinute)) 0 []]
  /\ ~ (inject_Z (atExpiry Sample.clock + 1 * msPerMinute)
        == inject_Z (atExpiry Sample.clock) + (3 # 2) * inject_Z msPerMinute)%Q.
Proof.
  split.
  - vm_compute. reflexivity.
  - vm_compute. discriminate.
Qed.

(** The sum of line 23 is a sum of Numbers.  With [validity = 1 - 2^-53]
    (the literal 0.9999999999999999), sixteen minutes past the hour, it is
    rounded to 17 and the record expires one minute after the request; on
    the hour the same validity leaves the minute as it is, and the
    validator of [expiresAt] refuses the record.  Likewise [2 - 2^-52]
    (the literal 1.9999999999999998) adds two minutes at that time, and
    1.5 adds one. *)
Example validity_rounded_up :
  docs (snd (createShortUrl Whatwg.schemePrefix Sample.counting Sample.clockAt16
               (Sample.withValidity (9007199254740991 # 9007199254740992)) initial))
  = [mkUrl "https://example.com/a" "usean" 960001
           (Some (atExpiry Sample.clockAt16 + 1 * msPerMinute)) 0 []]
  /\ Sample.create Sample.counting
       (Sample.withValidity (9007199254740991 # 9007199254740992)) initial
     = (Json 400 (ValidationMessage ["expiresAt"]), mkWorld [] 5)
  /\ minutesAdded Sample.clockAt16 (9007199254740991 # 9007199254740992) = 1
  /\ minutesAdded Sample.clockAt16 (9007199254740990 # 4503599627370496) = 2
  /\ minutesAdded Sample.clockAt16 (3 # 2) = 1.
Proof. repeat split; vm_compute; reflexivity. Qed.

(** [setMinutes] works on the local time.  A quarter of an hour before
    the clocks go back by one hour, the default validity of 30 minutes
    gives an expiry 90 minutes after the request. *)
Example expiry_across_offset_change :
  expiryOf Sample.clockBeforeChange JUndefined
  = Some (DateValue (atExpiry Sample.clockBeforeChange + 90 * msPerMinute)).
Proof. vm_compute. reflexivity. Qed.

(** C3, amended.  A create request either leaves the collection as it is
    or adds one document, and the added document has a non-null
    [expiresAt], a date after the time of the save.  A record is only
    persisted when [validity] is absent or a positive number.  When
    [validity] is absent, or a positive whole number [n], and the request
    is [steady] (local time is a date from 1970 on, the local time of the
    expiry is in the range of [Date], and the offset of the time zone is
    the same at both), [expiresAt] is the time at which the request
    computed the expiry (the clock reading of [calculateExpiry], just
    before the one of [createdAt]) plus 30 minutes, respectively plus [n]
    minutes.  For any positive number, under the same conditions, it is
    that time plus [minutesAdded] minutes: the integer part of the Number
    [getMinutes() + validity], less the minutes read. *)
Theorem C3_expiry_assigned
    (urlParses : string -> bool) (randomBytes : nat -> N)
    (clk : CreateClock) (body : CreateBody) (w : World) :
  let w' := snd (createShortUrl urlParses randomBytes clk body w) in
  docs w' = docs w
  \/ exists d t,
       docs w' = (docs w ++ [d])%list
       /\ createdAt d = atNew clk
       /\ expiresAt d = Some t
       /\ atSave clk < t
       /\ (validity body = JUndefined
           \/ exists q, validity body = JNumber q /\ (0 < q)%Q)
       /\ (forall n off : Z,
             wholeMinutes (validity body) n -> steady clk n off ->
             t = atExpiry clk + n * msPerMinute)
       /\ (forall (q : Q) (off : Z),
             validity body = JNumber q -> steady clk (minutesAdded clk q) off ->
             t = atExpiry clk + minutesAdded clk q * msPerMinute).
Proof.
  intros w'. subst w'.
  destruct (createShortUrl_added urlParses randomBytes clk body w)
    as [E|(target & code & d & E & Hv & Hval & _ & Hd)]; [left; exact E|right].
  destruct (expiryOf_accepted clk _ Hv) as [date Hx].
  rewrite Hx in Hval, Hd.
  apply validateNew_expiry in Hval. destruct Hval as [t [Ht Hlater]].
  exists d, t. split; [exact E|].
  split; [subst d; reflexivity|]. split; [subst d date; reflexivity|].
  split; [exact Hlater|]. split; [exact (validity_accepted _ Hv)|]. split.
  - intros n off Hw Hs. rewrite (expiryOf_whole _ _ _ _ Hw Hs) in Hx.
    inversion Hx as [Hc]. rewrite Ht in Hc. exact (timeClip_value _ _ Hc).
  - intros q off Hq Hs.
    destruct (validity_accepted _ Hv) as [Hu | (q' & Hq' & Hpos)]; [congruence|].
    assert (q' = q) by congruence. subst q'.
    rewrite Hq, (expiryOf_number _ _ _ Hpos Hs) in Hx.
    inversion Hx as [Hc]. rewrite Ht in Hc. exact (timeClip_value _ _ Hc).
Qed.

Lemma C3_expiry_assigned_witness :
  exists d,
    docs (snd (Sample.create Sample.counting (Sample.withValidity 2) initial)) = [d]
    /\ expiresAt d = Some (atExpiry Sample.clock + 2 * msPerMinute).
Proof.
  destruct (C3_expiry_assigned Whatwg.schemePrefix Sample.counting Sample.clock
              (Sample.withValidity 2) initial)
    as [E|(d & t & E & _ & He & _ & _ & Hwhole & _)].
  - vm_compute in E. discriminate E.
  - exists d. split; [exact E|].
    rewrite He, (Hwhole 2 0); [reflexivity | |].
    + right. exists 2%Q. repeat split.
    + repeat split; vm_compute; congruence.
Defined.

(** ** Custom codes *)

(** C4, as stated, fails: the availability check runs before the format
    check.  After a create request has stored the generated code
    ["-----"], a request for the custom code ["-----"], which does not
    match [^[A-Za-z0-9]{5,10}$], is answered with the conflict and not
    with the format error. *)
Lemma C4_conflict_before_format :
  customCodeFormat "-----" = false
  /\ map shortCode (docs (snd (Sample.create Sample.eights Sample.plain initial)))
     = ["-----"]
  /\ fst (Sample.create Sample.eights (Sample.withCode "-----")
            (snd (Sample.create Sample.eights Sample.plain initial)))
     = CodeConflict.
Proof. repeat split; vm_compute; reflexivity. Qed.

(** C4, amended.  For a create request that passed the checks of the URL
    and of the validity and that carries a custom code: if the lookup of
    that code finds a document, the answer is CodeConflict (409), whether
    or not the code matches [^[A-Za-z0-9]{5,10}$]; if it finds none and
    the code does not match, the answer is CodeFormatInvalid (400).  In
    both cases nothing changes.  For a code that matches, the lookup finds
    a document exactly when a document of the collection has that code. *)
Theorem C4_custom_code
    (urlParses : string -> bool) (randomBytes : nat -> N)
    (clk : CreateClock) (body : CreateBody) (w : World)
    (target custom : string) :
  url body = Some target ->
  Str.truthy target = true ->
  urlParses target = true ->
  validityRejected (validity body) = false ->
  shortcode body = Some custom ->
  Str.truthy custom = true ->
  (findOne custom (docs w) <> None ->
   createShortUrl urlParses randomBytes clk body w = (CodeConflict, w))
  /\ (findOne custom (docs w) = None ->
      customCodeFormat custom = false ->
      createShortUrl urlParses randomBytes clk body w = (CodeFormatInvalid, w))
  /\ (customCodeFormat custom = true ->
      (findOne custom (docs w) <> None
       <-> exists d, In d (docs w) /\ shortCode d = custom))
  /\ statusOf CodeConflict = 409
  /\ statusOf CodeFormatInvalid = 400.
Proof.
  intros Hu Ht Hp Hv Hs Hc.
  unfold createShortUrl, isValidUrl, chooseCode.
  rewrite Hu, Ht, Hp, Hv, Hs, Hc. simpl.
  split; [|split; [|split; [|split; reflexivity]]].
  - intros Hfound.
    destruct (findOne custom (docs w)) eqn:F; [reflexivity|congruence].
  - intros -> ->. reflexivity.
  - intros Hfmt.
    assert (Htrim : Str.trim custom = custom).
    { apply trim_id. unfold customCodeFormat in Hfmt.
      apply andb_true_iff in Hfmt. destruct Hfmt as [Hfmt _].
      apply andb_true_iff in Hfmt. destruct Hfmt as [Hall _].
      apply (all_impl Chars.is_alnum); [|exact Hall].
      intros c Hcx. apply symbol_not_space, alnum_is_symbol, Hcx. }
    unfold findOne. rewrite Htrim. split.
    + intros Hfound. destruct (lookup custom (docs w)) as [d|] eqn:F;
        [|congruence].
      exists d. apply lookup_Some. exact F.
    + intros [d [Hin Hd]] F. exact (lookup_None _ _ F d Hin Hd).
Qed.

Lemma C4_custom_code_witness :
  Sample.create Sample.counting (Sample.withCode "ab") initial
  = (CodeFormatInvalid, initial).
Proof.
  apply (C4_custom_code Whatwg.schemePrefix Sample.counting Sample.clock
           (Sample.withCode "ab") initial "https://x.com" "ab");
    reflexivity.
Defined.

(** ** Redirect *)




(** ** Validity *)

(** C6.  A create request whose validity is present and is not a positive
    number fails with a 400 before any code is generated and before
    anything is stored: the world (collection and pool of random bytes) is
    unchanged.  The failure is InvalidValidity whenever the URL of the
    request passed the two checks that come first. *)
Theorem C6_invalid_validity_rejected
    (urlParses : string -> bool) (randomBytes : nat -> N)
    (clk : CreateClock) (body : CreateBody) (w : World) :
  validity body <> JUndefined ->
  (forall q, validity body = JNumber q -> (q <= 0)%Q) ->
  snd (createShortUrl urlParses randomBytes clk body w) = w
  /\ statusOf (fst (createShortUrl urlParses randomBytes clk body w)) = 400
  /\ (forall target,
        url body = Some target -> Str.truthy target = true ->
        urlParses target = true ->
        fst (createShortUrl urlParses randomBytes clk body w) = InvalidValidity).
Proof.
  intros Hpresent Hnotpos.
  assert (Hr : validityRejected (validity body) = true).
  { unfold validityRejected. destruct (validity body) as [| |b|q|s|];
      try reflexivity; [congruence|].
    simpl. apply Qle_bool_iff. apply Hnotpos. reflexivity. }
  unfold createShortUrl, isValidUrl.
  destruct (url body) as [target|]; [|repeat split; discriminate].
  destruct (Str.truthy target) eqn:Ht; simpl;
    [|repeat split; intros t' H; inversion H; subst; congruence].
  destruct (urlParses target) eqn:Hp; simpl;
    [|repeat split; intros t' H; inversion H; subst; congruence].
  rewrite Hr. repeat split.
Qed.

Lemma C6_invalid_validity_rejected_witness :
  snd (Sample.create Sample.counting (Sample.withValidity 0) initial) = initial
  /\ statusOf (fst (Sample.create Sample.counting (Sample.withValidity 0) initial))
     = 400
  /\ (forall target,
        url (Sample.withValidity 0) = Some target -> Str.truthy target = true ->
        Whatwg.schemePrefix target = true ->
        fst (Sample.create Sample.counting (Sample.withValidity 0) initial)
        = InvalidValidity).
Proof.
  apply (C6_invalid_validity_rejected Whatwg.schemePrefix Sample.counting
           Sample.clock (Sample.withValidity 0) initial).
  - discriminate.
  - intros q H. inversion H. apply Qle_refl.
Defined.

(** ** Click accounting *)

(** Served one at a time, the requests keep the count: in every world
    that [handle] reaches, every document has [clicks] equal to the length
    of its [clickHistory].  A create request adds nothing or one document
    with [clicks = 0] and an empty history; a redirect that is not
    interrupted changes nothing or replaces one document by itself with
    [clicks] one more and one event appended; the statistics, the list and
    an eviction modify no document. *)
Lemma clicks_count_history_one_at_a_time
    (urlParses : string -> bool) (randomBytes : nat -> N) (w : World) :
  reachable urlParses randomBytes w ->
  Forall (fun d => clicks d = List.length (clickHistory d)) (docs w)
  /\ (forall clk body,
        let c' := docs (snd (createShortUrl urlParses randomBytes clk body w)) in
        c' = docs w
        \/ exists d, c' = (docs w ++ [d])%list
                     /\ clicks d = 0%nat /\ clickHistory d = [])
  /\ (forall clk req,
        let c' := snd (redirectToOriginal clk req (docs w)) in
        c' = docs w
        \/ exists d, findOne (paramShortCode req) (docs w) = Some d
                     /\ served (clickOf (atClick clk) req) (docs w) c' d)
  /\ (forall now code,
        snd (handle urlParses randomBytes (GetStats now code) w) = w)
  /\ snd (handle urlParses randomBytes ListAll w) = w
  /\ (forall gone d,
        In d (docs (snd (handle urlParses randomBytes (Evict gone) w))) ->
        In d (docs w)).
Proof.
  intros Hr. split; [|split; [|split; [|split; [|split]]]].
  - exact (proj1 (reachable_consistent _ _ _ Hr)).
  - intros clk body c'. subst c'.
    destruct (createShortUrl_added urlParses randomBytes clk body w)
      as [E|(target & code & d & E & _ & _ & _ & Hd)]; [left; exact E|right].
    exists d. subst d. auto.
  - intros clk req c'. subst c'.
    destruct (redirect_cases clk req (docs w)) as [[E _]|(d & F & X & V & E)];
      [left; exact E|right].
    exists d. split; [exact F|].
    destruct (redirect_served clk req (docs w) d F X V) as (c' & R & S & _).
    rewrite R. exact S.
  - reflexivity.
  - reflexivity.
  - intros gone d Hin. simpl in Hin. apply deleteMany_In in Hin. tauto.
Qed.

(** *** Two redirects that overlap *)

Lemma lookup_updateOne code f (c : Collection) x :
  lookup code c = Some x -> shortCode (f x) = code ->
  lookup code (updateOne code f c) = Some (f x).
Proof.
  unfold lookup. intros Hl Hf. induction c as [|y r IH]; simpl in *; [discriminate|].
  destruct (String.eqb (shortCode y) code) eqn:E.
  - inversion Hl; subst y. simpl. rewrite Hf, String.eqb_refl. reflexivity.
  - simpl. rewrite E. exact (IH Hl).
Qed.

Lemma updateOne_saveExisting (c : Collection) d ev :
  lookup (shortCode d) c = Some d ->
  updateOne (shortCode d) (applyClick (clicks d) ev) c
  = saveExisting (recordClick ev d) c.
Proof.
  unfold lookup. induction c as [|y r IH]; simpl; [reflexivity|].
  destruct (String.eqb (shortCode y) (shortCode d)) eqn:E.
  - intros H. inversion H; subst y. reflexivity.
  - intros H. now rewrite (IH H).
Qed.

Lemma redirectLoad_inr clk req c d :
  redirectLoad clk req c = inr d ->
  findOne (paramShortCode req) c = Some d
  /\ isExpired d (atCheck clk) = false
  /\ lookup (shortCode d) c = Some d.
Proof.
  unfold redirectLoad.
  destruct (findOne (paramShortCode req) c) as [x|] eqn:F; [|discriminate].
  destruct (isExpired x (atCheck clk)) eqn:X; [discriminate|].
  intros H. inversion H; subst x. split; [reflexivity|]. split; [exact X|].
  unfold findOne in F. pose proof (lookup_Some _ _ _ F) as [_ Hc].
  now rewrite Hc.
Qed.

(** The handler is its first half followed at once by its second half. *)
Lemma redirect_halves clk req c :
  redirectToOriginal clk req c
  = match redirectLoad clk req c with
    | inl early => (early, c)
    | inr loaded => redirectStore clk req loaded c
    end.
Proof.
  destruct (redirectLoad clk req c) as [early|d] eqn:L.
  - revert L. unfold redirectLoad, redirectToOriginal.
    destruct (findOne (paramShortCode req) c) as [x|]; [|congruence].
    destruct (isExpired x (atCheck clk)); congruence.
  - destruct (redirectLoad_inr _ _ _ _ L) as (F & X & Hl).
    unfold redirectToOriginal, redirectStore. rewrite F, X. cbv zeta.
    destruct (validateExisting _ _); [|reflexivity].
    rewrite Hl, (updateOne_saveExisting _ _ _ Hl). reflexivity.
Qed.

Lemma redirectStore_served clk req loaded c target c' :
  redirectStore clk req loaded c = (Redirect target, c') ->
  c' = updateOne (shortCode loaded)
         (applyClick (clicks loaded) (clickOf (atClick clk) req)) c.
Proof.
  unfold redirectStore. cbv zeta.
  destruct (validateExisting _ _); [|discriminate].
  destruct (lookup (shortCode loaded) c); [|discriminate].
  intros H. inversion H. reflexivity.
Qed.

(** C7.  The claim does not hold of the code when two redirects of the
    same code overlap.  Both load the document (line 180) before either
    saves it (line 200); both are answered with the redirect; the stored
    document then has one more click than the loaded one, and two more
    events: [clicks] is one less than the length of [clickHistory]. *)
Theorem C7_overlapping_redirects_lose_a_click
    (clk1 clk2 : VisitClock) (req1 req2 : RedirectRequest)
    (c c1 c2 : Collection) (d : UrlDoc) (target1 target2 : string) :
  counted d ->
  redirectLoad clk1 req1 c = inr d ->
  redirectLoad clk2 req2 c = inr d ->
  redirectStore clk1 req1 d c = (Redirect target1, c1) ->
  redirectStore clk2 req2 d c1 = (Redirect target2, c2) ->
  exists d2,
    lookup (shortCode d) c2 = Some d2
    /\ clicks d2 = (clicks d + 1)%nat
    /\ clickHistory d2
       = (clickHistory d
          ++ [clickOf (atClick clk1) req1; clickOf (atClick clk2) req2])%list
    /\ (clicks d2 + 1)%nat = List.length (clickHistory d2)
    /\ ~ counted d2.
Proof.
  intros Hd L1 _ S1 S2.
  destruct (redirectLoad_inr _ _ _ _ L1) as (_ & _ & Hl).
  apply redirectStore_served in S1, S2. subst c1 c2.
  set (ev1 := clickOf (atClick clk1) req1). set (ev2 := clickOf (atClick clk2) req2).
  pose proof (lookup_updateOne _ (applyClick (clicks d) ev1) _ _ Hl eq_refl) as H1.
  pose proof (lookup_updateOne _ (applyClick (clicks d) ev2) _ _ H1 eq_refl) as H2.
  eexists. split; [exact H2|]. simpl.
  split; [reflexivity|]. split; [now rewrite <- app_assoc|].
  unfold counted in *. simpl. rewrite !length_app. simpl. lia.
Qed.

Lemma C7_overlapping_redirects_lose_a_click_witness :
  exists d2,
    lookup "abcde"
      (snd (redirectStore (Sample.instant 200) Sample.visit (Sample.stored (Some 1000))
              (snd (redirectStore (Sample.instant 100) Sample.visit
                      (Sample.stored (Some 1000)) [Sample.stored (Some 1000)]))))
    = Some d2
    /\ clicks d2 = 1%nat
    /\ map timestamp (clickHistory d2) = [100; 200].
Proof.
  destruct (C7_overlapping_redirects_lose_a_click
              (Sample.instant 100) (Sample.instant 200) Sample.visit Sample.visit
              [Sample.stored (Some 1000)]
              (snd (redirectStore (Sample.instant 100) Sample.visit
                      (Sample.stored (Some 1000)) [Sample.stored (Some 1000)]))
              (snd (redirectStore (Sample.instant 200) Sample.visit
                      (Sample.stored (Some 1000))
                      (snd (redirectStore (Sample.instant 100) Sample.visit
                              (Sample.stored (Some 1000))
                              [Sample.stored (Some 1000)]))))
              (Sample.stored (Some 1000))
              "https://example.com/a" "https://example.com/a"
              eq_refl eq_refl eq_refl eq_refl eq_refl)
    as (d2 & Hl & Hc & Hh & _).
  exists d2. split; [exact Hl|]. split; [exact Hc|]. rewrite Hh. reflexivity.
Defined.

(** C8.  When a redirect is served, the click it records is the last
    event of the history of the document; its [source] is the [referer]
    header when that is set and not empty, else the [user-agent] header
    when that is set and not empty, else ["Direct/Unknown"]; its
    [location] is the address [req.ip]. *)
Theorem C8_click_event
    (clk : VisitClock) (req : RedirectRequest) (c c' : Collection)
    (target : string) :
  redirectToOriginal clk req c = (Redirect target, c') ->
  exists d ev d',
    findOne (paramShortCode req) c = Some d
    /\ findOne (paramShortCode req) c' = Some d'
    /\ clickHistory d' = (clickHistory d ++ [ev])%list
    /\ location ev = ip req
    /\ (forall r, referer req = Some r -> r <> "" -> source ev = r)
    /\ (referer req = None \/ referer req = Some "" ->
        forall u, userAgent req = Some u -> u <> "" -> source ev = u)
    /\ (referer req = None \/ referer req = Some "" ->
        userAgent req = None \/ userAgent req = Some "" ->
        source ev = "Direct/Unknown").
Proof.
  intros R.
  destruct (redirect_cases clk req c) as [[_ E]|(d & F & X & V & E)].
  - exfalso. apply (E target). rewrite R. reflexivity.
  - destruct (redirect_served clk req c d F X V) as (c'' & R' & _ & Hf).
    rewrite R in R'. inversion R'; subst c''.
    exists d, (clickOf (atClick clk) req),
           (recordClick (clickOf (atClick clk) req) d).
    split; [exact F|]. split; [exact Hf|].
    split; [reflexivity|]. split; [reflexivity|].
    unfold clickOf, headerOr. simpl.
    split; [|split].
    + intros r -> Hr. destruct r; [congruence|reflexivity].
    + intros Hr u -> Hu. destruct u; [congruence|].
      destruct Hr as [-> | ->]; reflexivity.
    + intros [-> | ->] [-> | ->]; reflexivity.
Qed.

Lemma C8_click_event_witness :
  exists d ev d',
    findOne "abcde" [Sample.stored (Some 1000)] = Some d
    /\ findOne "abcde"
         (snd (redirectToOriginal (Sample.instant 900) Sample.visit
                 [Sample.stored (Some 1000)]))
       = Some d'
    /\ clickHistory d' = (clickHistory d ++ [ev])%list
    /\ location ev = "10.0.0.7"
    /\ source ev = "https://ref.example/".
Proof.
  destruct (C8_click_event (Sample.instant 900) Sample.visit
              [Sample.stored (Some 1000)]
              (snd (redirectToOriginal (Sample.instant 900) Sample.visit
                      [Sample.stored (Some 1000)]))
              "https://example.com/a")
    as (d & ev & d' & F & Hf & Hh & Hl & Hs & _).
  - vm_compute. reflexivity.
  - exists d, ev, d'. repeat split; try assumption.
    apply Hs; [reflexivity | discriminate].
Defined.

(** ** The list *)

Lemma NoDup_map_eq {A B : Type} (f : A -> B) (l : list A) (x y : A) :
  NoDup (map f l) -> In x l -> In y l -> f x = f y -> x = y.
Proof.
  induction l as [|a r IH]; simpl; [tauto|].
  intros H Hx Hy E. inversion H as [|? ? Hnin Hnd]; subst.
  destruct Hx as [->|Hx], Hy as [->|Hy]; auto.
  - exfalso. apply Hnin. rewrite E. apply in_map. exact Hy.
  - exfalso. apply Hnin. rewrite <- E. apply in_map. exact Hx.
Qed.




(** ** The URL of a create request *)

(** C10.  A create request answers 201 only when its URL is accepted by
    the URL constructor and, once trimmed by the schema, matches the
    pattern [^(https?|ftp)://...] of the schema.  A URL that the
    constructor accepts and that does not match the pattern (a [mailto:]
    URL for one) is never answered with 201 and nothing is stored; when
    the request gets as far as the save, the answer is the validation
    failure (400) of the path [originalUrl]. *)
Theorem C10_url_must_match_schema
    (urlParses : string -> bool) (randomBytes : nat -> N)
    (clk : CreateClock) (body : CreateBody) (w : World) :
  (forall v,
     fst (createShortUrl urlParses randomBytes clk body w) = Json 201 v ->
     exists target,
       url body = Some target /\ urlParses target = true
       /\ originalUrlMatch (Str.trim target) = true)
  /\ (forall target,
        url body = Some target -> Str.truthy target = true ->
        urlParses target = true ->
        originalUrlMatch (Str.trim target) = false ->
        statusOf (fst (createShortUrl urlParses randomBytes clk body w)) <> 201
        /\ docs (snd (createShortUrl urlParses randomBytes clk body w)) = docs w
        /\ (forall code wc,
              validityRejected (validity body) = false ->
              chooseCode randomBytes (shortcode body) w = (inr code, wc) ->
              exists paths,
                createShortUrl urlParses randomBytes clk body w
                = (Json 400 (ValidationMessage paths), wc)
                /\ In "originalUrl" paths))
  /\ originalUrlMatch (Str.trim "mailto:someone@example.com") = false.
Proof.
  split; [|split; [|reflexivity]].
  - intros v E.
    destruct (createShortUrl urlParses randomBytes clk body w) as [resp w'] eqn:R.
    simpl in E. subst resp. apply createShortUrl_201 in R.
    destruct R as (target & code & wc & d & Hu & _ & Hp & _ & _ & Hs & _).
    apply saveNew_Saved in Hs. destruct Hs as (Hval & _).
    exists target. repeat split; try assumption.
    exact (validateNew_url _ _ _ _ Hval).
  - intros target Hu Ht Hp Hm.
    assert (Hne : statusOf (fst (createShortUrl urlParses randomBytes clk body w))
                  <> 201).
    { intros E. apply createShortUrl_201_view in E. destruct E as [v E].
      destruct (createShortUrl urlParses randomBytes clk body w) as [resp w'] eqn:R.
      simpl in E. subst resp. apply createShortUrl_201 in R.
      destruct R as (t & code & wc & d & Hu' & _ & _ & _ & _ & Hs & _).
      apply saveNew_Saved in Hs. destruct Hs as (Hval & _).
      apply validateNew_url in Hval. congruence. }
    split; [exact Hne|]. split; [apply createShortUrl_docs; exact Hne|].
    intros code wc Hv Hc. unfold createShortUrl, isValidUrl.
    rewrite Hu, Ht, Hp, Hv, Hc. simpl. unfold saveNew.
    pose proof (validateNew_url_fails (atSave clk) (Str.trim target) (Str.trim code)
                  (expiryOf clk (validity body))
                  Hm) as Hin.
    destruct (validateNew _ _ _ _) as [|p ps]; [destruct Hin|].
    eexists. split; [reflexivity | exact Hin].
Qed.

Lemma C10_url_must_match_schema_witness :
  Sample.create Sample.counting
    (mkBody (Some "mailto:someone@example.com") JUndefined None) initial
  = (Json 400 (ValidationMessage ["originalUrl"]), mkWorld [] 5).
Proof.
  destruct (C10_url_must_match_schema Whatwg.schemePrefix Sample.counting
              Sample.clock
              (mkBody (Some "mailto:someone@example.com") JUndefined None) initial)
    as (_ & H & _).
  destruct (H "mailto:someone@example.com" eq_refl eq_refl eq_refl eq_refl)
    as (_ & _ & Hsave).
  destruct (Hsave "usean" (mkWorld [] 5) eq_refl eq_refl) as (paths & E & _).
  unfold Sample.create. rewrite E. vm_compute in E.
  inversion E. reflexivity.
Defined.

(** * Further properties of the service *)

(** ** Codes *)

Section CodeFacts.

Variable randomBytes : nat -> N.

Lemma urlSafeCode_trim s : urlSafeCode s = true -> Str.trim s = s.
Proof.
  unfold urlSafeCode. intros H.
  apply andb_true_iff in H. destruct H as [H _].
  apply andb_true_iff in H. destruct H as [H _].
  apply trim_id. apply (all_impl Nanoid.is_symbol); [|exact H].
  apply symbol_not_space.
Qed.

Lemma customCodeFormat_urlSafe s : customCodeFormat s = true -> urlSafeCode s = true.
Proof.
  unfold customCodeFormat, urlSafeCode. intros H.
  apply andb_true_iff in H. destruct H as [H H3].
  apply andb_true_iff in H. destruct H as [H1 H2].
  rewrite H2, H3, (all_impl _ _ _ alnum_is_symbol H1). reflexivity.
Qed.

Lemma nanoid5_urlSafe offset : urlSafeCode (nanoid5 randomBytes offset) = true.
Proof.
  unfold urlSafeCode, nanoid5. rewrite id_symbols, id_length. reflexivity.
Qed.

(** The loop of lines 75-82 returns the first of its candidates that is
    free, and reads five bytes per candidate it tried. *)
Lemma generate_first_free remaining offset c :
  match generate randomBytes remaining offset c with
  | (Some code, offset') =>
      exists k, (k < remaining)%nat
                /\ code = nanoid5 randomBytes (offset + 5 * k)
                /\ offset' = (offset + 5 * (k + 1))%nat
                /\ findOne code c = None
                /\ forall j, (j < k)%nat ->
                     findOne (nanoid5 randomBytes (offset + 5 * j)) c <> None
  | (None, offset') =>
      offset' = (offset + 5 * remaining)%nat
      /\ forall j, (j < remaining)%nat ->
           findOne (nanoid5 randomBytes (offset + 5 * j)) c <> None
  end.
Proof.
  revert offset. induction remaining as [|n IH]; intros offset; cbn [generate].
  - split; [lia|]. intros j Hj. lia.
  - destruct (findOne (nanoid5 randomBytes offset) c) as [d|] eqn:F.
    + specialize (IH (offset + 5)%nat).
      destruct (generate randomBytes n (offset + 5) c) as [[code|] offset'].
      * destruct IH as (k & Hk & Hc & Ho & Hf & Hj).
        exists (S k). split; [lia|].
        replace (offset + 5 * S k)%nat with (offset + 5 + 5 * k)%nat by lia.
        split; [exact Hc|]. split; [lia|]. split; [exact Hf|].
        intros j Hlt. destruct j as [|j].
        -- replace (offset + 5 * 0)%nat with offset by lia. congruence.
        -- replace (offset + 5 * S j)%nat with (offset + 5 + 5 * j)%nat by lia.
           apply Hj. lia.
      * destruct IH as (Ho & Hj). split; [lia|].
        intros j Hlt. destruct j as [|j].
        -- replace (offset + 5 * 0)%nat with offset by lia. congruence.
        -- replace (offset + 5 * S j)%nat with (offset + 5 + 5 * j)%nat by lia.
           apply Hj. lia.
    + exists 0%nat. split; [lia|].
      replace (offset + 5 * 0)%nat with offset by lia.
      split; [reflexivity|]. split; [lia|]. split; [exact F|].
      intros j Hj. lia.
Qed.

(** The code that steps 2 and 3 hand to the save is URL-safe and free. *)
Lemma chooseCode_inr custom w code wc :
  chooseCode randomBytes custom w = (inr code, wc) ->
  urlSafeCode code = true /\ findOne code (docs w) = None /\ docs wc = docs w.
Proof.
  intros H. split; [|split; [|exact (chooseCode_docs _ _ _ _ _ H)]];
    revert H; unfold chooseCode, generateCode;
    pose proof (generate_first_free MAX_ATTEMPTS (poolOffset w) (docs w)) as G;
    destruct (generate randomBytes MAX_ATTEMPTS (poolOffset w) (docs w))
      as [[g|] off];
    try destruct G as (k & _ & Hg & _ & Hf & _);
    destruct custom as [s|]; try destruct (Str.truthy s);
    try destruct (findOne s (docs w)) eqn:F;
    try destruct (customCodeFormat s) eqn:Fmt; simpl;
    intros H; inversion H; subst;
    first [ apply nanoid5_urlSafe
          | apply customCodeFormat_urlSafe; assumption
          | assumption ].
Qed.

End CodeFacts.

(** ** The outcomes of a create request *)

Section CreateOutcomes.

Variable urlParses : string -> bool.
Variable randomBytes : nat -> N.


Lemma originalUrlMatch_truthy s : originalUrlMatch s = true -> Str.truthy s = true.
Proof. destruct s; [discriminate | reflexivity]. Qed.

Lemma urlSafeCode_lengths s :
  urlSafeCode s = true ->
  Str.truthy s && (5 <=? String.length s)%nat && (String.length s <=? 10)%nat = true.
Proof.
  unfold urlSafeCode. intros H.
  apply andb_true_iff in H. destruct H as [H H3].
  apply andb_true_iff in H. destruct H as [_ H2].
  rewrite H2, H3. destruct s; [discriminate H2 | reflexivity].
Qed.

Lemma validateNew_at_save clk target code v :
  urlSafeCode code = true ->
  validateNew (atSave clk) (Str.trim target) code (expiryOf clk v)
  = failingPaths clk target v.
Proof.
  intros Hc. unfold validateNew, failingPaths.
  rewrite (urlSafeCode_lengths _ Hc). simpl.
  f_equal.
  destruct (originalUrlMatch (Str.trim target)) eqn:M.
  - now rewrite (originalUrlMatch_truthy _ M).
  - now rewrite andb_false_r.
Qed.

(** A request that passed the checks of lines 39-51 and got a code from
    steps 2 and 3 is answered by the save alone: 201 with that very code
    when no path fails, else the 400 of the validation error; in the
    second case nothing is stored. *)
Lemma createShortUrl_at_save clk body w target code wc :
  url body = Some target ->
  Str.truthy target = true ->
  urlParses target = true ->
  validityRejected (validity body) = false ->
  chooseCode randomBytes (shortcode body) w = (inr code, wc) ->
  let e := dateValue (expiryOf clk (validity body)) in
  createShortUrl urlParses randomBytes clk body w
  = match failingPaths clk target (validity body) with
    | [] =>
        (Json 201 (CreatedView code (Str.trim target) e),
         mkWorld (docs w ++ [mkUrl (Str.trim target) code (atNew clk) e 0 []])%list
                 (poolOffset wc))
    | paths => (Json 400 (ValidationMessage paths), wc)
    end.
Proof.
  intros Hu Ht Hp Hv Hc e.
  destruct (chooseCode_inr _ _ _ _ _ Hc) as (Hsafe & Hfree & Hdocs).
  unfold createShortUrl, isValidUrl. rewrite Hu, Ht, Hp, Hv, Hc.
  cbn [negb]. cbv beta iota zeta. fold (expiryOf clk (validity body)).
  unfold saveNew. cbv zeta.
  rewrite (urlSafeCode_trim _ Hsafe), (validateNew_at_save _ _ _ _ Hsafe).
  destruct (failingPaths clk target (validity body)); [|reflexivity].
  unfold findOne in Hfree. rewrite (urlSafeCode_trim _ Hsafe) in Hfree.
  rewrite Hdocs, Hfree. reflexivity.
Qed.

(** When no path fails, the expiry is a date after the time of the save. *)
Lemma failingPaths_nil clk target v :
  validityRejected v = false ->
  failingPaths clk target v = [] ->
  exists e, expiryOf clk v = Some (DateValue e) /\ atSave clk < e.
Proof.
  intros Hv H. unfold failingPaths in H. apply app_eq_nil in H. destruct H as [_ H].
  destruct (expiryOf_accepted clk v Hv) as [date Hx]. rewrite Hx in *.
  destruct date as [e|]; [|discriminate].
  destruct (atSave clk <? e) eqn:L; [|discriminate].
  exists e. split; [reflexivity | now apply Z.ltb_lt].
Qed.

End CreateOutcomes.

(** X1.  Without a custom code, a create request that passed the checks of
    the URL and of the validity is answered with GenerationExhausted (500)
    exactly when each of the five candidates that nanoid yields is already
    stored; the collection is then unchanged and 25 random bytes were
    read. *)
Theorem X1_generation_exhausted
    (urlParses : string -> bool) (randomBytes : nat -> N)
    (clk : CreateClock) (body : CreateBody) (w : World) (target : string) :
  url body = Some target ->
  Str.truthy target = true ->
  urlParses target = true ->
  validityRejected (validity body) = false ->
  shortcode body = None \/ shortcode body = Some "" ->
  (forall j, (j < 5)%nat ->
     findOne (nanoid5 randomBytes (poolOffset w + 5 * j)) (docs w) <> None)
  <-> createShortUrl urlParses randomBytes clk body w
      = (GenerationExhausted, mkWorld (docs w) (poolOffset w + 25)).
Proof.
  intros Hu Ht Hp Hv Hnone.
  assert (Hg : chooseCode randomBytes (shortcode body) w = generateCode randomBytes w).
  { destruct Hnone as [-> | ->]; reflexivity. }
  pose proof (generate_first_free randomBytes MAX_ATTEMPTS (poolOffset w) (docs w)) as G.
  destruct (generate randomBytes MAX_ATTEMPTS (poolOffset w) (docs w))
    as [[code|] off] eqn:E.
  - destruct G as (k & Hk & Hcode & _ & Hfree & _).
    assert (Hc : chooseCode randomBytes (shortcode body) w
                 = (inr code, mkWorld (docs w) off)).
    { rewrite Hg. unfold generateCode. now rewrite E. }
    split.
    + intros Hall. exfalso. apply (Hall k Hk). rewrite <- Hcode. exact Hfree.
    + rewrite (createShortUrl_at_save _ _ _ _ _ _ _ _ Hu Ht Hp Hv Hc).
      destruct (failingPaths clk target (validity body)); discriminate.
  - destruct G as (Hoff & Hall). split; [|intros _; exact Hall].
    intros _. unfold createShortUrl, isValidUrl.
    rewrite Hu, Ht, Hp, Hv, Hg. unfold generateCode. rewrite E. simpl.
    rewrite Hoff. reflexivity.
Qed.

Lemma X1_generation_exhausted_witness :
  Sample.create Sample.eights Sample.plain
    (snd (Sample.create Sample.eights Sample.plain initial))
  = (GenerationExhausted,
     mkWorld (docs (snd (Sample.create Sample.eights Sample.plain initial))) 30).
Proof.
  apply (X1_generation_exhausted Whatwg.schemePrefix Sample.eights Sample.clock
           Sample.plain (snd (Sample.create Sample.eights Sample.plain initial))
           "https://example.com/a"); try reflexivity.
  - left. reflexivity.
  - intros j _. vm_compute. discriminate.
Defined.

(** X2.  When a create request without a custom code answers 201, the
    code is the first of nanoid's candidates that is not yet stored: no
    document carries it, every candidate before it is the code of a stored
    document, and five random bytes were read per candidate tried, at most
    25. *)
Theorem X2_first_free_candidate
    (urlParses : string -> bool) (randomBytes : nat -> N)
    (clk : CreateClock) (body : CreateBody) (w w' : World)
    (code target : string) (e : option Z) :
  shortcode body = None \/ shortcode body = Some "" ->
  createShortUrl urlParses randomBytes clk body w
  = (Json 201 (CreatedView code target e), w') ->
  exists k, (k < 5)%nat
    /\ code = nanoid5 randomBytes (poolOffset w + 5 * k)
    /\ findOne code (docs w) = None
    /\ (forall d, In d (docs w) -> shortCode d <> code)
    /\ (forall j, (j < k)%nat ->
          findOne (nanoid5 randomBytes (poolOffset w + 5 * j)) (docs w) <> None)
    /\ poolOffset w' = (poolOffset w + 5 * (k + 1))%nat.
Proof.
  intros Hnone H. apply createShortUrl_201 in H.
  destruct H as (t & code0 & wc & d & _ & _ & _ & _ & Hc & Hs & Hv & ->).
  apply saveNew_Saved in Hs. destruct Hs as (_ & Hfree & Hd & _).
  destruct (chooseCode_inr _ _ _ _ _ Hc) as (Hsafe & _ & _).
  rewrite (urlSafeCode_trim _ Hsafe) in Hfree.
  assert (Hcode : code = code0).
  { inversion Hv. subst d. simpl. apply urlSafeCode_trim. exact Hsafe. }
  assert (Hg : generateCode randomBytes w = (inr code0, wc)).
  { destruct Hnone as [E|E]; rewrite E in Hc; exact Hc. }
  unfold generateCode in Hg.
  pose proof (generate_first_free randomBytes MAX_ATTEMPTS (poolOffset w) (docs w)) as G.
  destruct (generate randomBytes MAX_ATTEMPTS (poolOffset w) (docs w))
    as [[c0|] off]; inversion Hg; subst c0 wc.
  destruct G as (k & Hk & Hc0 & Hoff & Hf & Hbefore).
  exists k. subst code. repeat split; try assumption.
  intros x Hx Hcx. apply (lookup_None _ _ Hfree x Hx). exact Hcx.
Qed.

(** The first candidate of the request, ["usean"], is the custom code of
    a stored document; the answer carries the second one, ["dom-2"]. *)
Lemma X2_first_free_candidate_witness :
  findOne (nanoid5 Sample.counting 0)
    (docs (snd (Sample.create Sample.counting (Sample.withCode "usean") initial)))
  <> None
  /\ exists k, (k < 5)%nat
       /\ "dom-2" = nanoid5 Sample.counting (0 + 5 * k)
       /\ findOne "dom-2"
            (docs (snd (Sample.create Sample.counting (Sample.withCode "usean") initial)))
          = None
       /\ (forall d,
             In d (docs (snd (Sample.create Sample.counting (Sample.withCode "usean")
                                initial))) ->
             shortCode d <> "dom-2")
       /\ (forall j, (j < k)%nat ->
             findOne (nanoid5 Sample.counting (0 + 5 * j))
               (docs (snd (Sample.create Sample.counting (Sample.withCode "usean")
                             initial)))
             <> None)
       /\ 10%nat = (0 + 5 * (k + 1))%nat.
Proof.
  split; [vm_compute; discriminate|].
  apply (X2_first_free_candidate Whatwg.schemePrefix Sample.counting Sample.clock
           Sample.plain
           (snd (Sample.create Sample.counting (Sample.withCode "usean") initial))
           (mkWorld
              [mkUrl "https://x.com" "usean" 1001 (Some 1801000) 0 [];
               mkUrl "https://example.com/a" "dom-2" 1001 (Some 1801000) 0 []] 10)
           "dom-2" "https://example.com/a" (Some 1801000)).
  - left. reflexivity.
  - vm_compute. reflexivity.
Defined.



(** X4.  For a body whose [url] and [shortcode] are strings or absent,
    and with no other request served between the lookup of the code and
    the insertion, every answer of a create request is one of:
    MissingUrl, InvalidUrl, InvalidValidity, CodeConflict,
    CodeFormatInvalid, GenerationExhausted, a validation failure (400)
    whose failing paths are among [originalUrl] and [expiresAt], or 201
    with a non-null expiry.  For such a request the generic 500 of line
    117 (a duplicate key at the insertion) and a validation failure of
    [shortCode] do not occur. *)
Theorem X4_create_answers
    (urlParses : string -> bool) (randomBytes : nat -> N)
    (clk : CreateClock) (body : CreateBody) (w : World) :
  let r := fst (createShortUrl urlParses randomBytes clk body w) in
  In r [MissingUrl; InvalidUrl; InvalidValidity; CodeConflict;
        CodeFormatInvalid; GenerationExhausted]
  \/ (exists paths, r = Json 400 (ValidationMessage paths)
                    /\ paths <> [] /\ incl paths ["originalUrl"; "expiresAt"])
  \/ (exists code target e, r = Json 201 (CreatedView code target (Some e))).
Proof.
  intros r. subst r.
  destruct (url body) as [target|] eqn:Hu;
    [|left; unfold createShortUrl; rewrite Hu; simpl; auto].
  destruct (Str.truthy target) eqn:Ht;
    [|left; unfold createShortUrl; rewrite Hu, Ht; simpl; auto].
  destruct (urlParses target) eqn:Hp;
    [|left; unfold createShortUrl, isValidUrl; rewrite Hu, Ht, Hp; simpl; auto].
  destruct (validityRejected (validity body)) eqn:Hv;
    [left; unfold createShortUrl, isValidUrl; rewrite Hu, Ht, Hp, Hv; simpl; auto|].
  destruct (chooseCode randomBytes (shortcode body) w) as [[early|code] wc] eqn:Hc.
  - left. unfold createShortUrl, isValidUrl. rewrite Hu, Ht, Hp, Hv, Hc. simpl.
    destruct (chooseCode_early _ _ _ _ _ Hc) as [-> | [-> | ->]]; auto 10.
  - right. rewrite (createShortUrl_at_save _ _ _ _ _ _ _ _ Hu Ht Hp Hv Hc).
    destruct (failingPaths clk target (validity body)) as [|p ps] eqn:F.
    + right. destruct (failingPaths_nil _ _ _ Hv F) as (e & -> & _).
      simpl. eauto.
    + left. simpl. exists (p :: ps). split; [reflexivity|].
      split; [discriminate|]. rewrite <- F. unfold failingPaths.
      intros x Hx. apply in_app_or in Hx. destruct Hx as [Hx|Hx].
      * destruct (originalUrlMatch (Str.trim target)); [destruct Hx|].
        destruct Hx as [<-|[]]. left. reflexivity.
      * destruct (expiryOf clk (validity body)) as [[e|]|];
          [destruct (atSave clk <? e)| |]; simpl in Hx;
          first [contradiction | destruct Hx as [<-|[]]; right; left; reflexivity].
Qed.

(** ** From a create request to the other handlers *)

Lemma lookup_app code (c : Collection) d :
  lookup code (c ++ [d])%list
  = match lookup code c with
    | Some x => Some x
    | None => if String.eqb (shortCode d) code then Some d else None
    end.
Proof.
  unfold lookup. induction c as [|x r IH]; simpl.
  - destruct (String.eqb (shortCode d) code); reflexivity.
  - destruct (String.eqb (shortCode x) code); [reflexivity | exact IH].
Qed.

(** What a 201 stores, with the code and the expiry of the answer. *)
Lemma createShortUrl_stored urlParses randomBytes clk body w w' code target e :
  createShortUrl urlParses randomBytes clk body w
  = (Json 201 (CreatedView code target e), w') ->
  exists t,
    e = Some t
    /\ atSave clk < t
    /\ urlSafeCode code = true
    /\ lookup code (docs w) = None
    /\ schemaValid (mkUrl target code (atNew clk) (Some t) 0 [])
    /\ docs w' = (docs w ++ [mkUrl target code (atNew clk) (Some t) 0 []])%list.
Proof.
  intros H. apply createShortUrl_201 in H.
  destruct H as (t0 & code0 & wc & d & _ & _ & _ & Hv & Hc & Hs & Hview & ->).
  apply saveNew_Saved in Hs. destruct Hs as (Hval & Hf & Hd & _).
  destruct (chooseCode_inr _ _ _ _ _ Hc) as (Hsafe & _ & _).
  rewrite (urlSafeCode_trim _ Hsafe) in *.
  destruct (expiryOf_accepted clk _ Hv) as [date Hx]. rewrite Hx in Hval, Hd.
  pose proof (validateNew_expiry _ _ _ _ Hval) as (t & Ht & Hlt).
  rewrite Ht in Hd. simpl in Hd. subst d. simpl in Hview.
  inversion Hview; subst.
  exists t. repeat split; try assumption.
  unfold schemaValid. simpl. apply validateNew_nil in Hval. tauto.
Qed.

(** X5.  After a create request answered 201 with a code, a URL and an
    expiry, the statistics of that code are served until the expiry with
    that URL, that expiry, no click and an empty history, and answer Gone
    after it; a redirect for that code before the expiry goes to that
    URL. *)
Theorem X5_created_then_resolved
    (urlParses : string -> bool) (randomBytes : nat -> N)
    (clk : CreateClock) (body : CreateBody) (w w' : World)
    (code target : string) (e : option Z) :
  createShortUrl urlParses randomBytes clk body w
  = (Json 201 (CreatedView code target e), w') ->
  exists t,
    e = Some t
    /\ (forall now, now <= t ->
          getShortUrlStats now code (docs w')
          = Json 200 (StatsView code target (atNew clk) (Some t) 0 []))
    /\ (forall now, t < now -> getShortUrlStats now code (docs w') = StatsGone)
    /\ (forall vclk req,
          paramShortCode req = code -> atCheck vclk <= t -> atStore vclk < t ->
          fst (redirectToOriginal vclk req (docs w')) = Redirect target).
Proof.
  intros H. apply createShortUrl_stored in H.
  destruct H as (t & -> & _ & Hsafe & Hfree & Hvalid & ->).
  set (d := mkUrl target code (atNew clk) (Some t) 0 []) in *.
  assert (F : findOne code (docs w ++ [d])%list = Some d).
  { unfold findOne. rewrite (urlSafeCode_trim _ Hsafe), lookup_app, Hfree.
    simpl. now rewrite String.eqb_refl. }
  exists t. split; [reflexivity|]. split; [|split].
  - intros now Hle. unfold getShortUrlStats. rewrite F.
    unfold isExpired. simpl. apply Z.ltb_ge in Hle. now rewrite Hle.
  - intros now Hlt. unfold getShortUrlStats. rewrite F.
    unfold isExpired. simpl. apply Z.ltb_lt in Hlt. now rewrite Hlt.
  - intros vclk req Hp Hcheck Hstore. rewrite <- Hp in F.
    destruct (redirect_served vclk req _ d F) as (c' & R & _).
    + unfold isExpired. simpl. apply Z.ltb_ge. exact Hcheck.
    + apply validateExisting_nil. split; [exact Hvalid | exact Hstore].
    + rewrite R. reflexivity.
Qed.

Lemma X5_created_then_resolved_witness :
  exists t,
    Some 1801000 = Some t
    /\ (forall now, now <= t ->
          getShortUrlStats now "usean"
            (docs (snd (Sample.create Sample.counting Sample.plain initial)))
          = Json 200 (StatsView "usean" "https://example.com/a"
                        (atNew Sample.clock) (Some t) 0 []))
    /\ (forall now, t < now ->
          getShortUrlStats now "usean"
            (docs (snd (Sample.create Sample.counting Sample.plain initial)))
          = StatsGone)
    /\ (forall vclk req,
          paramShortCode req = "usean" -> atCheck vclk <= t -> atStore vclk < t ->
          fst (redirectToOriginal vclk req
                 (docs (snd (Sample.create Sample.counting Sample.plain initial))))
          = Redirect "https://example.com/a").
Proof.
  apply (X5_created_then_resolved Whatwg.schemePrefix Sample.counting Sample.clock
           Sample.plain initial).
  vm_compute. reflexivity.
Defined.

(** X6.  A create request stores nothing or one document whose expiry is
    strictly after the clock of the save, hence strictly after its
    [createdAt] whenever the clock of the request does not run backwards. *)
Theorem X6_expiry_after_creation
    (urlParses : string -> bool) (randomBytes : nat -> N)
    (clk : CreateClock) (body : CreateBody) (w : World) :
  let w' := snd (createShortUrl urlParses randomBytes clk body w) in
  docs w' = docs w
  \/ exists d t,
       docs w' = (docs w ++ [d])%list
       /\ expiresAt d = Some t
       /\ atSave clk < t
       /\ (atNew clk <= atSave clk -> createdAt d < t).
Proof.
  intros w'. subst w'.
  destruct (createShortUrl_added urlParses randomBytes clk body w)
    as [E|(target & code & d & E & Hv & Hval & _ & Hd)]; [left; exact E|right].
  destruct (expiryOf_accepted clk _ Hv) as [date Hx]. rewrite Hx in Hval, Hd.
  pose proof (validateNew_expiry _ _ _ _ Hval) as (t & Ht & Hlt).
  rewrite Ht in Hd. simpl in Hd.
  exists d, t. split; [exact E|]. subst d. simpl.
  split; [reflexivity|]. split; [exact Hlt | lia].
Qed.

(** X7.  A validity of at most half a minute is never honoured: when
    [validity] is a number above 0 and not above 0.5, the request is
    [steady] and the clock does not run backwards, the expiry that the
    request computes is the time of the request itself; the request
    stores nothing and is not answered with 201, and if it gets as far as
    the save, the answer is the validation failure (400) of [expiresAt]. *)
Theorem X7_sub_minute_validity
    (urlParses : string -> bool) (randomBytes : nat -> N)
    (clk : CreateClock) (body : CreateBody) (w : World) (q : Q) (off : Z) :
  validity body = JNumber q ->
  (0 < q)%Q -> (q <= 1 # 2)%Q ->
  steady clk 0 off ->
  Z.abs (atExpiry clk) <= 8640000000000000 ->
  atExpiry clk <= atSave clk ->
  expiryOf clk (validity body) = Some (DateValue (atExpiry clk))
  /\ docs (snd (createShortUrl urlParses randomBytes clk body w)) = docs w
  /\ statusOf (fst (createShortUrl urlParses randomBytes clk body w)) <> 201
  /\ (forall target code wc,
        url body = Some target -> Str.truthy target = true ->
        urlParses target = true ->
        chooseCode randomBytes (shortcode body) w = (inr code, wc) ->
        exists paths,
          createShortUrl urlParses randomBytes clk body w
          = (Json 400 (ValidationMessage paths), wc)
          /\ In "expiresAt" paths).
Proof.
  intros Hq Hpos Hhalf Hst Hrange Hclk.
  assert (Hv : validityRejected (validity body) = false).
  { rewrite Hq. unfold validityRejected. simpl.
    destruct (Qle_bool q 0) eqn:E; [|reflexivity].
    apply Qle_bool_iff in E. exfalso. exact (Qlt_not_le _ _ Hpos E). }
  assert (Hx : expiryOf clk (validity body) = Some (DateValue (atExpiry clk))).
  { rewrite Hq, (expiryOf_half _ _ _ Hpos Hhalf Hst). unfold timeClip.
    apply Z.leb_le in Hrange. now rewrite Hrange. }
  assert (Hne : statusOf (fst (createShortUrl urlParses randomBytes clk body w))
                <> 201).
  { intros E. apply createShortUrl_201_view in E. destruct E as [v E].
    destruct (createShortUrl urlParses randomBytes clk body w) as [resp w'] eqn:R.
    simpl in E. subst resp. apply createShortUrl_201 in R.
    destruct R as (t0 & code0 & wc & d & _ & _ & _ & _ & _ & Hs & _).
    apply saveNew_Saved in Hs. destruct Hs as (Hval & _).
    rewrite Hx in Hval.
    apply validateNew_expiry in Hval. destruct Hval as (t & Ht & Hlater).
    inversion Ht. lia. }
  split; [exact Hx|].
  split; [apply createShortUrl_docs; exact Hne|]. split; [exact Hne|].
  intros target code wc Hu Ht Hp Hc.
  rewrite (createShortUrl_at_save _ _ _ _ _ _ _ _ Hu Ht Hp Hv Hc).
  assert (Hin : In "expiresAt" (failingPaths clk target (validity body))).
  { unfold failingPaths. rewrite Hx. apply in_or_app. right.
    assert (L : (atSave clk <? atExpiry clk) = false) by (apply Z.ltb_ge; lia).
    rewrite L. left. reflexivity. }
  destruct (failingPaths clk target (validity body)) as [|p ps]; [destruct Hin|].
  eexists. split; [reflexivity | exact Hin].
Qed.

Lemma X7_sub_minute_validity_witness :
  Sample.create Sample.counting (Sample.withValidity (1 # 2)) initial
  = (Json 400 (ValidationMessage ["expiresAt"]), mkWorld [] 5).
Proof.
  assert (Hst : steady Sample.clock 0 0)
    by (repeat split; vm_compute; congruence).
  assert (Hrange : Z.abs (atExpiry Sample.clock) <= 8640000000000000)
    by (vm_compute; discriminate).
  assert (Hclk : atExpiry Sample.clock <= atSave Sample.clock)
    by (vm_compute; discriminate).
  destruct (X7_sub_minute_validity Whatwg.schemePrefix Sample.counting Sample.clock
              (Sample.withValidity (1 # 2)) initial (1 # 2) 0
              eq_refl eq_refl (Qle_refl _) Hst Hrange Hclk)
    as (_ & _ & _ & H).
  destruct (H "https://example.com/a" "usean" (mkWorld [] 5)
              eq_refl eq_refl eq_refl eq_refl)
    as (paths & E & _).
  unfold Sample.create. rewrite E. vm_compute in E. inversion E. reflexivity.
Defined.

(** ** How the collection evolves *)

Section Evolution.

Variable urlParses : string -> bool.
Variable randomBytes : nat -> N.

Lemma lookup_In_NoDup (c : Collection) d :
  NoDup (map shortCode c) -> In d c -> lookup (shortCode d) c = Some d.
Proof.
  unfold lookup. induction c as [|x r IH]; simpl; [tauto|].
  intros Hn [->|Hin].
  - now rewrite String.eqb_refl.
  - inversion Hn as [|? ? Hnin Hnd]; subst.
    destruct (String.eqb (shortCode x) (shortCode d)) eqn:E; [|auto].
    apply String.eqb_eq in E. exfalso. apply Hnin. rewrite E.
    apply in_map. exact Hin.
Qed.

Lemma lookup_saveExisting_other code c d' :
  shortCode d' <> code ->
  lookup code (saveExisting d' c) = lookup code c.
Proof.
  unfold lookup. intros Hne. apply String.eqb_neq in Hne.
  induction c as [|x r IH]; simpl; [reflexivity|].
  destruct (String.eqb (shortCode x) (shortCode d')) eqn:E.
  - apply String.eqb_eq in E. simpl. rewrite Hne, E, Hne. reflexivity.
  - simpl. destruct (String.eqb (shortCode x) code); [reflexivity | exact IH].
Qed.

Lemma lookup_deleteMany gone code c d :
  NoDup (map shortCode c) -> lookup code c = Some d ->
  lookup code (deleteMany gone c) = if gone d then None else Some d.
Proof.
  intros Hn Hl. pose proof (lookup_Some _ _ _ Hl) as [Hin Hcode].
  destruct (gone d) eqn:G.
  - apply lookup_None_codes. intros Hc. apply in_map_iff in Hc.
    destruct Hc as (x & Hx & Hxin). apply deleteMany_In in Hxin.
    destruct Hxin as [Hxin Hg].
    assert (x = d) by (apply (NoDup_map_eq shortCode c); congruence).
    congruence.
  - rewrite <- Hcode. apply lookup_In_NoDup.
    + apply deleteMany_NoDup. exact Hn.
    + apply deleteMany_In. auto.
Qed.

Lemma evolved_refl d : evolved d d.
Proof.
  unfold evolved. repeat split; try reflexivity.
  exists []. now rewrite app_nil_r.
Qed.

Lemma evolved_click ev d : evolved d (recordClick ev d).
Proof.
  unfold evolved, recordClick. simpl. repeat split; try reflexivity; [lia|].
  exists [ev]. reflexivity.
Qed.

(** The two outcomes of a create request, with the document it adds. *)
Lemma createShortUrl_step clk body w :
  let c' := docs (snd (createShortUrl urlParses randomBytes clk body w)) in
  c' = docs w
  \/ exists code target t,
       c' = (docs w ++ [mkUrl target code (atNew clk) (Some t) 0 []])%list
       /\ urlSafeCode code = true
       /\ lookup code (docs w) = None.
Proof.
  intros c'. subst c'.
  destruct (createShortUrl_effect urlParses randomBytes clk body w) as [E|[v E]];
    [left; exact E|right].
  destruct (createShortUrl urlParses randomBytes clk body w) as [resp w'] eqn:R.
  simpl in E. subst resp.
  pose proof (createShortUrl_201 _ _ _ _ _ _ _ R)
    as (t0 & code0 & wc & d & _ & _ & _ & _ & _ & _ & Hview & _).
  rewrite Hview in R. apply createShortUrl_stored in R.
  destruct R as (t & _ & _ & Hsafe & Hfree & _ & Hdocs).
  simpl. eauto 10.
Qed.

(** One request never rewrites a stored document: a code that was stored
    is still stored with the same URL, creation and expiry, at least as
    many clicks and a history that extends the old one; or it was
    evicted. *)
Lemma handle_lookup r w code d :
  NoDup (map shortCode (docs w)) ->
  lookup code (docs w) = Some d ->
  (exists d', lookup code (docs (snd (handle urlParses randomBytes r w))) = Some d'
              /\ evolved d d')
  \/ (lookup code (docs (snd (handle urlParses randomBytes r w))) = None
      /\ exists gone, r = Evict gone /\ gone d = true).
Proof.
  intros Hn Hl. destruct r as [clk body|now c0|clk req| |gone]; simpl.
  - left. pose proof (createShortUrl_step clk body w) as S.
    destruct (createShortUrl urlParses randomBytes clk body w) as [resp w'].
    simpl in *. destruct S as [->|(c1 & t1 & e1 & -> & _ & _)].
    + exists d. split; [exact Hl | apply evolved_refl].
    + exists d. rewrite lookup_app, Hl. split; [reflexivity | apply evolved_refl].
  - left. exists d. split; [exact Hl | apply evolved_refl].
  - left. pose proof (redirect_cases clk req (docs w)) as S.
    destruct (redirectToOriginal clk req (docs w)) as [resp c'].
    simpl in *. destruct S as [[-> _]|(d0 & F & _ & _ & E)].
    + exists d. split; [exact Hl | apply evolved_refl].
    + inversion E; subst resp c'. clear E.
      destruct (String.eqb (shortCode d0) code) eqn:Q.
      * apply String.eqb_eq in Q.
        pose proof (lookup_Some _ _ _ F) as [_ Hc0].
        assert (d0 = d) by (unfold findOne in F; congruence). subst d0.
        exists (recordClick (clickOf (atClick clk) req) d).
        split; [|apply evolved_click].
        apply (lookup_saveExisting _ _ d); [exact Hl | exact Q].
      * apply String.eqb_neq in Q. exists d.
        rewrite lookup_saveExisting_other; [|exact Q].
        split; [exact Hl | apply evolved_refl].
  - left. exists d. split; [exact Hl | apply evolved_refl].
  - rewrite (lookup_deleteMany gone _ _ _ Hn Hl).
    destruct (gone d) eqn:G.
    + right. split; [reflexivity|]. exists gone. auto.
    + left. exists d. split; [reflexivity | apply evolved_refl].
Qed.

(** Every stored code is URL-safe. *)
Lemma reachable_urlSafe w :
  reachable urlParses randomBytes w ->
  Forall (fun d => urlSafeCode (shortCode d) = true) (docs w).
Proof.
  induction 1 as [|r w Hw IH]; [constructor|].
  rewrite Forall_forall in IH. apply Forall_forall.
  destruct r as [clk body|now c0|clk req| |gone]; simpl.
  - pose proof (createShortUrl_step clk body w) as S.
    destruct (createShortUrl urlParses randomBytes clk body w) as [resp w'].
    simpl in *. destruct S as [->|(c1 & t1 & e1 & -> & Hs & _)]; [exact IH|].
    intros x Hx. apply in_app_or in Hx. destruct Hx as [Hx|[<-|[]]]; auto.
  - exact IH.
  - pose proof (redirect_cases clk req (docs w)) as S.
    destruct (redirectToOriginal clk req (docs w)) as [resp c'].
    simpl in *. destruct S as [[-> _]|(d0 & F & _ & _ & E)]; [exact IH|].
    inversion E; subst resp c'. intros x Hx. apply saveExisting_In in Hx.
    destruct Hx as [->|Hx]; [|auto].
    simpl. apply IH. exact (proj1 (findOne_Some _ _ _ F)).
  - exact IH.
  - intros x Hx. apply deleteMany_In in Hx. apply IH. tauto.
Qed.

End Evolution.

(** X8.  In every world the service reaches, every stored code has 5 to
    10 characters, each of [A-Za-z0-9_-]: a custom code passed the pattern
    of line 65 and a generated one is a nanoid of five symbols.  Such a
    code is left as it is by the [trim] of a lookup. *)
Theorem X8_stored_codes_url_safe
    (urlParses : string -> bool) (randomBytes : nat -> N) (w : World) (d : UrlDoc) :
  reachable urlParses randomBytes w ->
  In d (docs w) ->
  Str.all Nanoid.is_symbol (shortCode d) = true
  /\ (5 <= String.length (shortCode d) <= 10)%nat
  /\ findOne (shortCode d) (docs w) = Some d.
Proof.
  intros Hr Hin.
  pose proof (reachable_urlSafe _ _ _ Hr) as Hs.
  rewrite Forall_forall in Hs. specialize (Hs d Hin).
  destruct (reachable_consistent _ _ _ Hr) as (_ & Hn & _).
  split; [|split].
  - unfold urlSafeCode in Hs. apply andb_true_iff in Hs. destruct Hs as [Hs _].
    apply andb_true_iff in Hs. tauto.
  - unfold urlSafeCode in Hs. apply andb_true_iff in Hs. destruct Hs as [Hs H2].
    apply andb_true_iff in Hs. destruct Hs as [_ H1].
    apply Nat.leb_le in H1, H2. lia.
  - unfold findOne. rewrite (urlSafeCode_trim _ Hs).
    apply lookup_In_NoDup; assumption.
Qed.

Lemma X8_stored_codes_url_safe_witness :
  Str.all Nanoid.is_symbol "usean" = true
  /\ (5 <= String.length "usean" <= 10)%nat
  /\ findOne "usean" (docs Run.visited)
     = Some (mkUrl "https://example.com/a" "usean" 1001 (Some 1801000) 1
                   [mkClick 2001 "curl/8.0" "10.0.0.7"]).
Proof.
  apply (X8_stored_codes_url_safe Whatwg.schemePrefix Sample.counting Run.visited
           (mkUrl "https://example.com/a" "usean" 1001 (Some 1801000) 1
                  [mkClick 2001 "curl/8.0" "10.0.0.7"])).
  - unfold Run.visited, Run.created.
    apply reach_step, reach_step, reach_initial.
  - vm_compute. left. reflexivity.
Defined.



(** X10.  Reads after a physical deletion are not-found: once an eviction
    has removed a document, the statistics and the redirect of its code
    answer NotFound (404), also when the document had expired, and the
    redirect records nothing. *)
Theorem X10_not_found_after_eviction
    (urlParses : string -> bool) (randomBytes : nat -> N) (w : World)
    (gone : UrlDoc -> bool) (d : UrlDoc) (now : Z)
    (clk : VisitClock) (req : RedirectRequest) :
  reachable urlParses randomBytes w ->
  In d (docs w) ->
  gone d = true ->
  paramShortCode req = shortCode d ->
  let c' := docs (snd (handle urlParses randomBytes (Evict gone) w)) in
  getShortUrlStats now (shortCode d) c' = StatsNotFound
  /\ redirectToOriginal clk req c' = (RedirectNotFound, c').
Proof.
  intros Hr Hin Hg Hp c'. subst c'. simpl.
  destruct (reachable_consistent _ _ _ Hr) as (_ & Hn & _).
  pose proof (reachable_urlSafe _ _ _ Hr) as Hs.
  rewrite Forall_forall in Hs. specialize (Hs d Hin).
  assert (F : findOne (shortCode d) (deleteMany gone (docs w)) = None).
  { unfold findOne. rewrite (urlSafeCode_trim _ Hs).
    rewrite (lookup_deleteMany gone _ _ d Hn (lookup_In_NoDup _ _ Hn Hin)).
    now rewrite Hg. }
  unfold getShortUrlStats, redirectToOriginal. rewrite Hp, F. auto.
Qed.

Lemma X10_not_found_after_eviction_witness :
  getShortUrlStats 9999999 "usean" (deleteMany (fun d => isExpired d 9999999)
                                      (docs Run.visited))
  = StatsNotFound.
Proof.
  refine (proj1 (X10_not_found_after_eviction Whatwg.schemePrefix Sample.counting
                   Run.visited (fun d => isExpired d 9999999)
                   (mkUrl "https://example.com/a" "usean" 1001 (Some 1801000) 1
                          [mkClick 2001 "curl/8.0" "10.0.0.7"])
                   9999999 (Sample.instant 9999999) Run.visitUsean _ _ _ _)).
  - unfold Run.visited, Run.created.
    apply reach_step, reach_step, reach_initial.
  - vm_compute. left. reflexivity.
  - reflexivity.
  - reflexivity.
Defined.

(** X11.  Redirects that are served one after the other on the same code
    lose no click: after [n] of them the document has [n] more clicks and
    its history is extended by their [n] events, in the order of the
    redirects; its URL and its expiry are unchanged. *)
Theorem X11_redirects_accumulate
    (vs : list (VisitClock * RedirectRequest)) (c : Collection)
    (code : string) (d : UrlDoc) :
  lookup code c = Some d ->
  schemaValid d ->
  (forall v, In v vs ->
     Str.trim (paramShortCode (snd v)) = code /\ live (fst v) d) ->
  exists d',
    lookup code (visitAll vs c) = Some d'
    /\ clicks d' = (clicks d + List.length vs)%nat
    /\ clickHistory d' = (clickHistory d ++ clicksOf vs)%list
    /\ originalUrl d' = originalUrl d
    /\ expiresAt d' = expiresAt d.
Proof.
  revert c d. induction vs as [|[clk req] rest IH]; intros c d Hl Hvalid Hall.
  - exists d. simpl. rewrite app_nil_r, Nat.add_0_r. auto.
  - destruct (Hall (clk, req) (or_introl eq_refl)) as [Hcode Hlive].
    simpl in Hcode, Hlive.
    assert (F : findOne (paramShortCode req) c = Some d)
      by (unfold findOne; rewrite Hcode; exact Hl).
    destruct (redirect_served clk req c d F) as (c' & R & _ & F').
    + unfold isExpired. unfold live in Hlive.
      destruct (expiresAt d) as [e|]; [|reflexivity].
      apply Z.ltb_ge. tauto.
    + apply validateExisting_nil. split; [exact Hvalid|].
      unfold live in Hlive. destruct (expiresAt d); tauto.
    + unfold findOne in F'. rewrite Hcode in F'.
      destruct (IH c' (recordClick (clickOf (atClick clk) req) d) F' Hvalid)
        as (d' & Hl' & Hc' & Hh' & Hu' & He').
      { intros v Hv. exact (Hall v (or_intror Hv)). }
      exists d'. simpl visitAll. rewrite R. simpl snd.
      split; [exact Hl'|]. rewrite Hc', Hh', Hu', He'. simpl.
      rewrite <- app_assoc. simpl. repeat split; lia.
Qed.

Lemma X11_redirects_accumulate_witness :
  exists d',
    lookup "abcde"
      (visitAll [(Sample.instant 100, Sample.visit);
                 (Sample.instant 200, Sample.visit);
                 (Sample.instant 300, Sample.visit)] [Sample.stored (Some 1000)])
    = Some d'
    /\ clicks d' = 3%nat
    /\ map timestamp (clickHistory d') = [100; 200; 300].
Proof.
  destruct (X11_redirects_accumulate
              [(Sample.instant 100, Sample.visit);
               (Sample.instant 200, Sample.visit);
               (Sample.instant 300, Sample.visit)]
              [Sample.stored (Some 1000)] "abcde" (Sample.stored (Some 1000)))
    as (d' & Hl & Hc & Hh & _).
  - reflexivity.
  - reflexivity.
  - intros v [<-|[<-|[<-|[]]]]; split; try reflexivity; vm_compute; split;
      congruence.
  - exists d'. split; [exact Hl|]. split; [exact Hc|]. rewrite Hh. reflexivity.
Defined.

Lemma stats_gone now code c :
  getShortUrlStats now code c = StatsGone ->
  exists d e, findOne code c = Some d /\ expiresAt d = Some e /\ e < now.
Proof.
  unfold getShortUrlStats, isExpired.
  destruct (findOne code c) as [d|] eqn:F; [|discriminate].
  destruct (expiresAt d) as [e|] eqn:E; [|discriminate].
  destruct (e <? now) eqn:L; [|discriminate].
  intros _. exists d, e. apply Z.ltb_lt in L. auto.
Qed.

(** X12.  Requests cannot undo an expiry; only an eviction frees the
    code.  Once the statistics of a code answer Gone, then after any
    sequence of further requests without an eviction (create requests,
    statistics, redirects and lists, in any number and order, served one
    at a time), and at any later time, the statistics still answer Gone
    and so does a redirect, which records nothing. *)
Theorem X12_gone_stays_gone
    (urlParses : string -> bool) (randomBytes : nat -> N)
    (w : World) (rs : list Request) (code : string) (t t' : Z)
    (clk : VisitClock) (req : RedirectRequest) :
  reachable urlParses randomBytes w ->
  getShortUrlStats t code (docs w) = StatsGone ->
  Forall (fun r => isEvict r = false) rs ->
  t <= t' -> t <= atCheck clk ->
  paramShortCode req = code ->
  let c' := docs (handleAll urlParses randomBytes rs w) in
  getShortUrlStats t' code c' = StatsGone
  /\ redirectToOriginal clk req c' = (RedirectGone, c').
Proof.
  intros Hr Hg Hrs Ht Hclk Hp c'. subst c'.
  destruct (stats_gone _ _ _ Hg) as (d & e & F & He & Hlt).
  unfold findOne in F. clear Hg.
  revert w d Hr F He. induction rs as [|r rest IH]; intros w d Hr F He.
  - simpl. unfold getShortUrlStats, redirectToOriginal, findOne, isExpired.
    rewrite Hp, F, He.
    assert (L1 : (e <? t') = true) by (apply Z.ltb_lt; lia).
    assert (L2 : (e <? atCheck clk) = true) by (apply Z.ltb_lt; lia).
    now rewrite L1, L2.
  - inversion Hrs as [|? ? Hne Hrest]; subst.
    destruct (reachable_consistent _ _ _ Hr) as (_ & Hn & _).
    destruct (handle_lookup urlParses randomBytes r w _ _ Hn F)
      as [(d' & Hl' & Hev)|(_ & gone & -> & _)]; [|discriminate Hne].
    destruct Hev as (_ & _ & _ & Hexp & _).
    cbn [handleAll]. apply (IH Hrest _ d').
    + apply reach_step. exact Hr.
    + exact Hl'.
    + rewrite Hexp. exact He.
Qed.

Lemma X12_gone_stays_gone_witness :
  getShortUrlStats 9000000 "usean"
    (docs (handleAll Whatwg.schemePrefix Sample.counting
             [Visit (mkVisitClock 2000 2001 2002) Run.visitUsean;
              Create Sample.clock (Sample.withCode "usean");
              ListAll]
             Run.created))
  = StatsGone
  /\ redirectToOriginal (Sample.instant 9000000) Run.visitUsean
       (docs (handleAll Whatwg.schemePrefix Sample.counting
                [Visit (mkVisitClock 2000 2001 2002) Run.visitUsean;
                 Create Sample.clock (Sample.withCode "usean");
                 ListAll]
                Run.created))
     = (RedirectGone,
        docs (handleAll Whatwg.schemePrefix Sample.counting
                [Visit (mkVisitClock 2000 2001 2002) Run.visitUsean;
                 Create Sample.clock (Sample.withCode "usean");
                 ListAll]
                Run.created)).
Proof.
  apply (X12_gone_stays_gone Whatwg.schemePrefix Sample.counting Run.created
           [Visit (mkVisitClock 2000 2001 2002) Run.visitUsean;
            Create Sample.clock (Sample.withCode "usean");
            ListAll]
           "usean" 8000000 9000000 (Sample.instant 9000000) Run.visitUsean).
  - unfold Run.created. apply reach_step, reach_initial.
  - vm_compute. reflexivity.
  - repeat constructor.
  - vm_compute. discriminate.
  - vm_compute. discriminate.
  - reflexivity.
Defined.

(** After an eviction the code is free again: a create request with the
    custom code of the evicted document is answered 201, and the
    statistics of the code are served once more. *)
Example evicted_code_created_again :
  getShortUrlStats 8000000 "usean" (docs Run.created) = StatsGone
  /\ statusOf
       (getShortUrlStats 8000001 "usean"
          (docs (handleAll Whatwg.schemePrefix Sample.counting
                   [Evict (fun d => isExpired d 8000000);
                    Create (mkClock 8000000 8000000 8000000 utc)
                           (Sample.withCode "usean")]
                   Run.created)))
     = 200.
Proof. split; vm_compute; reflexivity. Qed.

(** X13.  In every world the service reaches, a statistics answer agrees
    with the list: the list has exactly one entry for the code of the
    answer, with the same URL, creation, expiry and number of clicks. *)
Theorem X13_stats_agree_with_list
    (urlParses : string -> bool) (randomBytes : nat -> N) (w : World)
    (now : Z) (code c u : string) (cr : Z) (ex : option Z) (n : nat)
    (hist : list ClickEvent) :
  reachable urlParses randomBytes w ->
  getShortUrlStats now code (docs w) = Json 200 (StatsView c u cr ex n hist) ->
  exists items,
    getAllShortUrls (docs w) = Json 200 (ListView items)
    /\ In (mkSummary c u cr ex n) items
    /\ forall s, In s items -> sumShortCode s = c -> s = mkSummary c u cr ex n.
Proof.
  intros Hr H.
  destruct (reachable_consistent _ _ _ Hr) as (_ & Hn & _).
  unfold getShortUrlStats in H.
  destruct (findOne code (docs w)) as [d|] eqn:F; [|discriminate].
  destruct (isExpired d now); [discriminate|].
  inversion H; subst. clear H.
  pose proof (findOne_Some _ _ _ F) as [Hin _].
  exists (map summarize (docs w)). split; [reflexivity|]. split.
  - change (In (summarize d) (map summarize (docs w))). apply in_map. exact Hin.
  - intros s Hs Hcode. apply in_map_iff in Hs. destruct Hs as (x & <- & Hx).
    simpl in Hcode.
    assert (x = d) by (apply (NoDup_map_eq shortCode (docs w)); assumption).
    subst x. reflexivity.
Qed.

Lemma X13_stats_agree_with_list_witness :
  exists items,
    getAllShortUrls (docs Run.visited) = Json 200 (ListView items)
    /\ In (mkSummary "usean" "https://example.com/a" 1001 (Some 1801000) 1) items
    /\ forall s, In s items -> sumShortCode s = "usean" ->
         s = mkSummary "usean" "https://example.com/a" 1001 (Some 1801000) 1.
Proof.
  apply (X13_stats_agree_with_list Whatwg.schemePrefix Sample.counting Run.visited
           5000 "usean" "usean" "https://example.com/a" 1001 (Some 1801000) 1%nat
           [mkClick 2001 "curl/8.0" "10.0.0.7"]).
  - unfold Run.visited, Run.created.
    apply reach_step, reach_step, reach_initial.
  - vm_compute. reflexivity.
Defined.

(** ** Routing *)

Section RouteFacts.

Variable urlParses : string -> bool.
Variable randomBytes : nat -> N.

Lemma create_not_list clk body w :
  ~ isList (fst (createShortUrl urlParses randomBytes clk body w)).
Proof.
  intros (s & items & E). revert E. unfold createShortUrl.
  destruct (url body) as [target|]; [|discriminate].
  destruct (negb (Str.truthy target)); [discriminate|].
  destruct (negb (isValidUrl urlParses target)); [discriminate|].
  destruct (validityRejected (validity body)); [discriminate|].
  destruct (chooseCode randomBytes (shortcode body) w) as [[early|code] wc] eqn:Hc.
  - destruct (chooseCode_early _ _ _ _ _ Hc) as [-> | [-> | ->]]; discriminate.
  - destruct (saveNew _ _ _ _ _ _); discriminate.
Qed.

Lemma stats_not_list now code c : ~ isList (getShortUrlStats now code c).
Proof.
  intros (s & items & E). revert E. unfold getShortUrlStats.
  destruct (findOne code c) as [d|]; [|discriminate].
  destruct (isExpired d now); discriminate.
Qed.

Lemma redirect_not_json clk req c status body :
  fst (redirectToOriginal clk req c) <> Json status body.
Proof.
  unfold redirectToOriginal.
  destruct (findOne (paramShortCode req) c) as [d|]; [|discriminate].
  destruct (isExpired d (atCheck clk)); [discriminate|].
  destruct (validateExisting _ _); discriminate.
Qed.

Lemma rootRoute_cases vclk req w resp w' :
  rootRoute vclk req w = Some (resp, w') ->
  isGet (httpMethod req) = true
  /\ exists code,
       httpPath req = [code]
       /\ redirectToOriginal vclk (redirectRequest code req) (docs w)
          = (resp, docs w')
       /\ poolOffset w' = poolOffset w.
Proof.
  unfold rootRoute. destruct (httpPath req) as [|code [|x rest]]; try discriminate.
  destruct (isGet (httpMethod req)); [|discriminate].
  destruct (redirectToOriginal vclk (redirectRequest code req) (docs w))
    as [r c'] eqn:R.
  intros H. inversion H; subst. split; [reflexivity|]. exists code. auto.
Qed.

(** The routes that answer a request. *)
Lemma dispatch_cases cclk vclk req w resp w' :
  dispatch urlParses randomBytes cclk vclk req w = Some (resp, w') ->
  (httpMethod req = OPTIONS /\ resp = Send 200 "OK" /\ w' = w)
  \/ (httpMethod req = POST
      /\ (exists mount, httpPath req = [mount] /\ isMount mount = true)
      /\ createShortUrl urlParses randomBytes cclk (httpBody req) w = (resp, w'))
  \/ (isGet (httpMethod req) = true
      /\ (exists mount code, httpPath req = [mount; code] /\ isMount mount = true)
      /\ w' = w
      /\ exists code, resp = getShortUrlStats (atCheck vclk) code (docs w))
  \/ rootRoute vclk req w = Some (resp, w').
Proof.
  unfold dispatch.
  destruct (httpMethod req) eqn:M;
    try (intros H; inversion H; subst; left; auto; fail);
    destruct (httpPath req) as [|mount rest] eqn:P; try discriminate;
    destruct (isMount mount) eqn:I; try (intros H; right; right; right; exact H);
    destruct rest as [|code [|x rest]];
    intros H; try (right; right; right; exact H).
  - inversion H; subst. right. right. left.
    split; [reflexivity|]. split; [exists mount, code; auto|]. eauto.
  - inversion H; subst. right. right. left.
    split; [reflexivity|]. split; [exists mount, code; auto|]. eauto.
  - right. left. split; [reflexivity|]. split; [exists mount; auto|].
    inversion H. destruct (createShortUrl _ _ _ _ _). reflexivity.
Qed.

End RouteFacts.

(** X14.  The list handler is not mounted: [getAllShortUrls] is exported
    by the controller, but the router only has [POST /] and
    [GET /:shortCode], so no request, whatever its method and path, is
    answered with the list. *)
Theorem X14_list_not_routed
    (urlParses : string -> bool) (randomBytes : nat -> N)
    (cclk : CreateClock) (vclk : VisitClock) (req : HttpRequest)
    (w w' : World) (resp : Response) :
  dispatch urlParses randomBytes cclk vclk req w = Some (resp, w') ->
  forall status items, resp <> Json status (ListView items).
Proof.
  intros H status items E.
  destruct (dispatch_cases _ _ _ _ _ _ _ _ H)
    as [(_ & -> & _) | [(_ & _ & C) | [(_ & _ & _ & code & ->) | R]]].
  - discriminate.
  - apply (create_not_list urlParses randomBytes cclk (httpBody req) w).
    rewrite C. simpl. exists status, items. exact E.
  - apply (stats_not_list (atCheck vclk) code (docs w)).
    exists status, items. exact E.
  - apply rootRoute_cases in R. destruct R as (_ & code & _ & R & _).
    apply (redirect_not_json vclk (redirectRequest code req) (docs w) status
             (ListView items)).
    rewrite R. exact E.
Qed.

Lemma X14_list_not_routed_witness :
  dispatch Whatwg.schemePrefix Sample.counting Sample.clock (Sample.instant 5000)
    (mkHttp GET ["shorturls"] Sample.plain None None "10.0.0.7") Run.visited
  = Some (RedirectNotFound, Run.visited)
  /\ RedirectNotFound <> Json 200 (ListView (map summarize (docs Run.visited))).
Proof.
  split; [reflexivity|].
  apply (X14_list_not_routed Whatwg.schemePrefix Sample.counting Sample.clock
           (Sample.instant 5000)
           (mkHttp GET ["shorturls"] Sample.plain None None "10.0.0.7")
           Run.visited Run.visited).
  reflexivity.
Defined.



(** ** The logger *)

Section LoggerFacts.

Import Logger.

Lemma get_set_same k v o : get k (set k v o) = Some v.
Proof.
  induction o as [|[k' v'] r IH]; simpl.
  - now rewrite String.eqb_refl.
  - destruct (String.eqb k' k) eqn:E; simpl.
    + now rewrite String.eqb_refl.
    + now rewrite E.
Qed.

Lemma get_set_other k k' v o : k <> k' -> get k' (set k v o) = get k' o.
Proof.
  intros Hne. induction o as [|[k0 v0] r IH]; simpl.
  - apply String.eqb_neq in Hne. now rewrite Hne.
  - destruct (String.eqb k0 k) eqn:E; simpl.
    + apply String.eqb_eq in E. subst k0.
      apply String.eqb_neq in Hne. now rewrite Hne.
    + destruct (String.eqb k0 k'); [reflexivity | exact IH].
Qed.

Lemma get_None_keys k o : get k o = None <-> ~ In k (keys o).
Proof.
  induction o as [|[k' v'] r IH]; simpl; [tauto|].
  destruct (String.eqb k' k) eqn:E.
  - apply String.eqb_eq in E. split; [discriminate | tauto].
  - apply String.eqb_neq in E. rewrite IH. tauto.
Qed.

Lemma keys_set k v o k' : In k' (keys (set k v o)) <-> k' = k \/ In k' (keys o).
Proof.
  induction o as [|[k0 v0] r IH]; simpl; [intuition congruence|].
  destruct (String.eqb k0 k) eqn:E; simpl.
  - apply String.eqb_eq in E. subst. intuition congruence.
  - rewrite IH. intuition congruence.
Qed.

Lemma NoDup_set k v o : NoDup (keys o) -> NoDup (keys (set k v o)).
Proof.
  induction o as [|[k0 v0] r IH]; simpl; intros H.
  - constructor; [tauto | constructor].
  - inversion H as [|? ? Hnin Hnd]; subst.
    destruct (String.eqb k0 k) eqn:E; simpl.
    + apply String.eqb_eq in E. subst. constructor; assumption.
    + apply String.eqb_neq in E. constructor; [|apply IH; exact Hnd].
      rewrite keys_set. intros [->|Hin]; [congruence | contradiction].
Qed.

(** A property of [{ ...o, ...m }] is the one of [m] when [m] has it, else
    the one of [o]. *)
Lemma get_spread k o m :
  NoDup (keys m) ->
  get k (spread o m) = match get k m with
                       | Some v => Some v
                       | None => get k o
                       end.
Proof.
  revert o. induction m as [|[k1 v1] r IH]; intros o Hn; simpl; [reflexivity|].
  inversion Hn as [|? ? Hnin Hnd]; subst. rewrite (IH _ Hnd).
  destruct (String.eqb k1 k) eqn:E.
  - apply String.eqb_eq in E. subst k1.
    apply get_None_keys in Hnin. rewrite Hnin. apply get_set_same.
  - apply String.eqb_neq in E.
    destruct (get k r); [reflexivity | apply get_set_other; exact E].
Qed.

Lemma keys_spread k o m :
  In k (keys (spread o m)) <-> In k (keys o) \/ In k (keys m).
Proof.
  revert o. induction m as [|[k1 v1] r IH]; intros o; simpl; [tauto|].
  rewrite IH, keys_set. intuition congruence.
Qed.

Lemma NoDup_spread o m : NoDup (keys o) -> NoDup (keys (spread o m)).
Proof.
  revert o. induction m as [|[k1 v1] r IH]; intros o H; simpl; [exact H|].
  apply IH, NoDup_set, H.
Qed.

End LoggerFacts.

(** X16.  A log entry has the four fields [timestamp], [level], [service]
    and [message] and the fields of the metadata, each once.  The metadata
    is spread last: a metadata field that is named like one of the four
    replaces it, and a field that the metadata does not have keeps the
    value given by the logger. *)
Theorem X16_metadata_overrides_entry
    (timestamp level service message : string) (metadata : Logger.Obj) :
  NoDup (Logger.keys metadata) ->
  let entry := Logger.logEntry timestamp level service message metadata in
  NoDup (Logger.keys entry)
  /\ (forall k, In k (Logger.keys entry)
                <-> In k ["timestamp"; "level"; "service"; "message"]
                    \/ In k (Logger.keys metadata))
  /\ (forall k v, Logger.get k metadata = Some v -> Logger.get k entry = Some v)
  /\ (forall k v,
        In (k, v) [("timestamp", timestamp); ("level", level);
                   ("service", service); ("message", message)] ->
        Logger.get k metadata = None ->
        Logger.get k entry = Some (JString v)).
Proof.
  intros Hn entry. subst entry. unfold Logger.logEntry.
  split; [|split; [|split]].
  - apply NoDup_spread. repeat apply NoDup_set. constructor.
  - intros k. rewrite keys_spread. simpl. intuition congruence.
  - intros k v H. rewrite (get_spread _ _ _ Hn), H. reflexivity.
  - intros k v Hin H. rewrite (get_spread _ _ _ Hn), H.
    simpl in Hin.
    destruct Hin as [E|[E|[E|[E|[]]]]]; inversion E; subst; reflexivity.
Qed.

Lemma X16_metadata_overrides_entry_witness :
  Logger.get "level"
    (Logger.logEntry "2025-01-01T00:00:00.000Z" "INFO" "BackendService" "hello"
       [("level", JString "custom"); ("shortCode", JString "abcd1")])
  = Some (JString "custom").
Proof.
  refine (proj1 (proj2 (proj2
            (X16_metadata_overrides_entry "2025-01-01T00:00:00.000Z" "INFO"
               "BackendService" "hello"
               [("level", JString "custom"); ("shortCode", JString "abcd1")] _)))
            "level" (JString "custom") eq_refl).
  repeat constructor; simpl; intuition discriminate.
Defined.

(** ** The list across requests *)

(** X17.  A create request answered with 201 adds exactly one entry at the
    end of the list, with the code, the URL and the expiry of the answer
    and no click; with any other answer the list is unchanged. *)
Theorem X17_create_extends_list
    (urlParses : string -> bool) (randomBytes : nat -> N)
    (clk : CreateClock) (body : CreateBody) (w : World) :
  let r := createShortUrl urlParses randomBytes clk body w in
  (exists code target t,
     fst r = Json 201 (CreatedView code target (Some t))
     /\ getAllShortUrls (docs (snd r))
        = Json 200 (ListView (map summarize (docs w)
                              ++ [mkSummary code target (atNew clk) (Some t) 0])%list))
  \/ (statusOf (fst r) <> 201
      /\ getAllShortUrls (docs (snd r)) = getAllShortUrls (docs w)).
Proof.
  intros r. subst r.
  destruct (Z.eq_dec (statusOf (fst (createShortUrl urlParses randomBytes clk body w)))
                     201) as [E|E].
  - left. apply createShortUrl_201_view in E. destruct E as [v E].
    destruct (createShortUrl urlParses randomBytes clk body w) as [resp w'] eqn:R.
    simpl in E. subst resp.
    pose proof (createShortUrl_201 _ _ _ _ _ _ _ R)
      as (t0 & code0 & wc & d & _ & _ & _ & _ & _ & _ & Hview & _).
    rewrite Hview in R. apply createShortUrl_stored in R.
    destruct R as (t & He & _ & _ & _ & _ & Hdocs).
    exists (shortCode d), (originalUrl d), t. simpl.
    rewrite Hview, He, Hdocs. unfold getAllShortUrls.
    rewrite map_app. split; reflexivity.
  - right. split; [exact E|]. now rewrite (createShortUrl_docs _ _ _ _ _ E).
Qed.


Lemma strip_ci_app p q s :
  Str.strip_ci (p ++ q) s
  = match Str.strip_ci p s with
    | Some r => Str.strip_ci q r
    | None => None
    end.
Proof.
  revert s. induction p as [|a p IH]; intros s; simpl.
  - destruct q; reflexivity.
  - destruct s as [|b s]; [reflexivity|].
    destruct (Chars.eqb_ci a b); [apply IH | reflexivity].
Qed.

(** The scheme accepted by the pattern of the schema. *)
Lemma afterScheme_prefix s rest :
  afterScheme s = Some rest ->
  Str.strip_ci "http://" s = Some rest
  \/ Str.strip_ci "https://" s = Some rest
  \/ Str.strip_ci "ftp://" s = Some rest.
Proof.
  unfold afterScheme.
  change "http://" with ("http" ++ "://").
  change "https://" with ("http" ++ "s://").
  rewrite !strip_ci_app.
  destruct (Str.strip_ci "http" s) as [r|]; [|auto].
  destruct (Str.strip_ci "s://" r) as [r'|]; auto.
Qed.

(** X19.  The service only redirects to URLs of the schemes of the schema:
    in every world the service reaches, the target of a redirect matches
    [^(https?|ftp)://...], so it begins with [http://], [https://] or
    [ftp://], in any case of the letters. *)
Theorem X19_redirect_target_scheme
    (urlParses : string -> bool) (randomBytes : nat -> N) (w : World)
    (clk : VisitClock) (req : RedirectRequest) (target : string) (c' : Collection) :
  reachable urlParses randomBytes w ->
  redirectToOriginal clk req (docs w) = (Redirect target, c') ->
  originalUrlMatch target = true
  /\ (exists rest, Str.strip_ci "http://" target = Some rest
                   \/ Str.strip_ci "https://" target = Some rest
                   \/ Str.strip_ci "ftp://" target = Some rest).
Proof.
  intros Hr R.
  destruct (reachable_consistent _ _ _ Hr) as (_ & _ & Hv).
  destruct (redirect_cases clk req (docs w)) as [[_ Hn]|(d & F & _ & _ & E)].
  - exfalso. apply (Hn target). rewrite R. reflexivity.
  - rewrite R in E. inversion E; subst target.
    rewrite Forall_forall in Hv.
    pose proof (Hv d (proj1 (findOne_Some _ _ _ F))) as Hd.
    apply validateNew_url in Hd. split; [exact Hd|].
    unfold originalUrlMatch in Hd.
    destruct (afterScheme (originalUrl d)) as [rest|] eqn:A; [|discriminate].
    exists rest. apply afterScheme_prefix. exact A.
Qed.

Lemma X19_redirect_target_scheme_witness :
  originalUrlMatch "https://example.com/a" = true
  /\ (exists rest, Str.strip_ci "http://" "https://example.com/a" = Some rest
                   \/ Str.strip_ci "https://" "https://example.com/a" = Some rest
                   \/ Str.strip_ci "ftp://" "https://example.com/a" = Some rest).
Proof.
  apply (X19_redirect_target_scheme Whatwg.schemePrefix Sample.counting Run.created
           (mkVisitClock 2000 2001 2002) Run.visitUsean "https://example.com/a"
           (docs Run.visited)).
  - unfold Run.created. apply reach_step, reach_initial.
  - reflexivity.
Defined.
